(** * scout_apm: the Django adapter of the request/span tracking engine

    A shallow embedding of [src/scout_apm/django/middleware.py]:
    the queue-time header parser [track_request_queue_time], the new-style
    middlewares [MiddlewareTimingMiddleware] and [ViewTimingMiddleware], and
    the old-style middlewares [OldStyleMiddlewareTimingMiddleware] and
    [OldStyleViewMiddleware].

    Python values are modelled as follows.
    - [str]: [string], one character per code point below 256 (WSGI hands
      header values over as Latin-1 text).
    - [float]: IEEE binary64, as [spec_float] with [prec = 53] and
      [emax = 1024]; every operation is the correctly rounded one.
    - [datetime] (naive, UTC): microseconds since the epoch, in [Z].
    - [timedelta]: microseconds, in [Z].
    - exceptions: the type [exn]; a computation yields an [outcome].
    - objects that are mutated and shared ([TrackedRequest], [Span]): cells of
      a store, named by references. *)

From Stdlib Require Import ZArith List String Ascii Bool Lia.
From Stdlib Require Import Floats.SpecFloat.
From stdpp Require Import base option strings gmap list.

Local Open Scope string_scope.
Local Open Scope list_scope.
Local Open Scope Z_scope.

(** ** Exceptions and outcomes *)

(** The exception classes the adapter can meet.  All of them derive from
    [Exception]; [ValueError] is the only one a [except ValueError] clause
    catches. *)
Inductive exn : Type :=
  | ValueError
  | OverflowError
  | OSError
  | AttributeError
  | OtherError (name : string).

Inductive outcome (A : Type) : Type :=
  | Return (a : A)
  | Raise (e : exn).
Arguments Return {A} a.
Arguments Raise {A} e.

Definition is_ValueError (e : exn) : bool :=
  match e with ValueError => true | _ => false end.

(** ** Python strings *)

Module PyStr.

(** [s[i:j]] for [0 <= i <= j]: clamped to the length of [s]. *)
Definition slice (i j : nat) (s : string) : string :=
  String.substring i (j - i) s.

Definition is_digit (c : ascii) : bool :=
  (48 <=? nat_of_ascii c)%nat && (nat_of_ascii c <=? 57)%nat.

Definition digit_val (c : ascii) : Z := Z.of_nat (nat_of_ascii c) - 48.

(** [Py_ISSPACE]: tab, LF, VT, FF, CR and the blank. *)
Definition is_space (c : ascii) : bool :=
  let n := nat_of_ascii c in
  ((9 <=? n)%nat && (n <=? 13)%nat) || (n =? 32)%nat.

Fixpoint lstrip (s : string) : string :=
  match s with
  | String c rest => if is_space c then lstrip rest else s
  | EmptyString => s
  end.

Definition rev (s : string) : string :=
  string_of_list_ascii (List.rev (list_ascii_of_string s)).

Definition strip (s : string) : string := rev (lstrip (rev (lstrip s))).

(** ASCII lower case, for the case-insensitive literals of [float]. *)
Definition lower (c : ascii) : ascii :=
  let n := nat_of_ascii c in
  if (65 <=? n)%nat && (n <=? 90)%nat then ascii_of_nat (n + 32) else c.

Fixpoint lower_str (s : string) : string :=
  match s with
  | String c rest => String (lower c) (lower_str rest)
  | EmptyString => EmptyString
  end.

End PyStr.

(** ** Python floats *)

Module PyFloat.

Definition prec : Z := 53.
Definition emax : Z := 1024.

(** The float nearest to the integer [z] ([float(z)]). *)
Definition of_Z (z : Z) : spec_float := binary_normalize prec emax z 0 false.

(** The float nearest to [(-1)^neg * m * 10^e10], ties to even: what
    [float(str)] returns for a decimal literal with digits [m] and decimal
    exponent [e10].  The quotient of two integers is rounded once, by
    [SFdiv] on the integers as mantissas. *)
Definition of_decimal (neg : bool) (m : Z) (e10 : Z) : spec_float :=
  match m with
  | Zpos p =>
      if 0 <=? e10
      then binary_normalize prec emax (cond_Zopp neg (Z.pos p * 10 ^ e10)) 0 false
      else match 10 ^ (- e10) with
           | Zpos d => SFdiv prec emax (S754_finite neg p 0) (S754_finite false d 0)
           | _ => S754_nan
           end
  | _ => S754_zero neg
  end.

(** [a / b] on Python ints with [b > 0]: the correctly rounded quotient. *)
Definition int_truediv (a : Z) (b : positive) : spec_float :=
  match a with
  | Z0 => S754_zero false
  | Zpos p => SFdiv prec emax (S754_finite false p 0) (S754_finite false b 0)
  | Zneg p => SFdiv prec emax (S754_finite true p 0) (S754_finite false b 0)
  end.

Definition mul (x y : spec_float) : spec_float := SFmul prec emax x y.

(** [modf]: the integral part, as an integer, and the fractional part, which
    is exact and carries the sign of the argument. *)
Definition modf (x : spec_float) : Z * spec_float :=
  match x with
  | S754_finite s m e =>
      if 0 <=? e then (cond_Zopp s (Z.shiftl (Z.pos m) e), S754_zero s)
      else
        let q := Z.shiftr (Z.pos m) (- e) in
        let r := Z.land (Z.pos m) (Z.ones (- e)) in
        (cond_Zopp s q,
         match r with Zpos r' => S754_finite s r' e | _ => S754_zero s end)
  | _ => (0, x)
  end.

(** Round to the nearest integer, ties to even ([_PyTime_RoundHalfEven]). *)
Definition round_half_even (x : spec_float) : Z :=
  match x with
  | S754_finite s m e =>
      if 0 <=? e then cond_Zopp s (Z.shiftl (Z.pos m) e)
      else
        let q := Z.shiftr (Z.pos m) (- e) in
        let r := Z.land (Z.pos m) (Z.ones (- e)) in
        let half := Z.shiftl 1 (- e - 1) in
        let up := (half <? r) || ((half =? r) && Z.odd q) in
        cond_Zopp s (if up then q + 1 else q)
  | _ => 0
  end.

(** [int(x)]: truncation towards zero; NaN and the infinities raise. *)
Definition to_int (x : spec_float) : outcome Z :=
  match x with
  | S754_zero _ => Return 0
  | S754_finite s m e =>
      Return (cond_Zopp s (if 0 <=? e then Z.shiftl (Z.pos m) e
                           else Z.shiftr (Z.pos m) (- e)))
  | S754_infinity _ => Raise OverflowError
  | S754_nan => Raise ValueError
  end.

(** *** [float(str)] *)

Import PyStr.

(** [digit ("_"? digit)*], after a first digit: the digits read, most
    significant first, and what is left. *)
Fixpoint digits_tail (s : string) : list Z * string :=
  match s with
  | String c rest =>
      if is_digit c then
        let '(ds, r) := digits_tail rest in (digit_val c :: ds, r)
      else if Ascii.eqb c "_" then
        match rest with
        | String d rest' =>
            if is_digit d then
              let '(ds, r) := digits_tail rest' in (digit_val d :: ds, r)
            else ([], s)
        | EmptyString => ([], s)
        end
      else ([], s)
  | EmptyString => ([], s)
  end.

(** A possibly empty run of digits. *)
Definition digits (s : string) : list Z * string :=
  match s with
  | String c rest =>
      if is_digit c then
        let '(ds, r) := digits_tail rest in (digit_val c :: ds, r)
      else ([], s)
  | EmptyString => ([], s)
  end.

Definition digits_value (ds : list Z) : Z :=
  fold_left (fun acc d => 10 * acc + d) ds 0.

Definition sign (s : string) : bool * string :=
  match s with
  | String c rest =>
      if Ascii.eqb c "-" then (true, rest)
      else if Ascii.eqb c "+" then (false, rest)
      else (false, s)
  | EmptyString => (false, s)
  end.

(** The exponent part: nothing, or [e] or [E], a sign and at least one
    digit, up to the end of the string. *)
Definition exponent (s : string) : option Z :=
  match s with
  | EmptyString => Some 0
  | String c rest =>
      if Ascii.eqb (lower c) "e" then
        let '(neg, s1) := sign rest in
        match digits s1 with
        | (d :: ds, EmptyString) => Some (cond_Zopp neg (digits_value (d :: ds)))
        | _ => None
        end
      else None
  end.

(** [sign? (digits ("." digits?)? | "." digits) exponent?] *)
Definition number (s : string) : option spec_float :=
  let '(neg, s1) := sign s in
  let '(ip, s2) := digits s1 in
  let '(fp, s3) :=
    match s2 with
    | String c rest => if Ascii.eqb c "." then digits rest else ([], s2)
    | EmptyString => ([], s2)
    end in
  match ip ++ fp with
  | [] => None
  | ds =>
      match exponent s3 with
      | Some e => Some (of_decimal neg (digits_value ds) (e - Z.of_nat (length fp)))
      | None => None
      end
  end.

(** [sign? ("inf" | "infinity" | "nan")], in any case. *)
Definition inf_or_nan (s : string) : option spec_float :=
  let '(neg, s1) := sign s in
  let l := lower_str s1 in
  if String.eqb l "inf" || String.eqb l "infinity" then Some (S754_infinity neg)
  else if String.eqb l "nan" then Some S754_nan
  else None.

(** The white space of Latin-1 beyond ASCII: NEL (U+0085) and the no-break
    space (U+00A0).  [float(str)] first turns each of them into a blank. *)
Definition blank (c : ascii) : ascii :=
  let n := nat_of_ascii c in
  if (n =? 133)%nat || (n =? 160)%nat then " "%char else c.

Fixpoint blanks (s : string) : string :=
  match s with
  | String c rest => String (blank c) (blanks rest)
  | EmptyString => EmptyString
  end.

(** [float(s)] for a [str]: the white space is made blank, the ends are
    stripped with [Py_ISSPACE], and what is left is a literal or not;
    [None] stands for [ValueError]. *)
Definition parse (s : string) : option spec_float :=
  let t := strip (blanks s) in
  match inf_or_nan t with
  | Some f => Some f
  | None => number t
  end.

Definition of_str (s : string) : outcome spec_float :=
  match parse s with
  | Some f => Return f
  | None => Raise ValueError
  end.

End PyFloat.

(** ** [datetime] and [timedelta] *)

Module PyDatetime.

(** [datetime.min] and [datetime.max], in microseconds since the epoch
    (years 1 to 9999). *)
Definition min_us : Z := -62135596800 * 1000000.
Definition max_us : Z := 253402300799 * 1000000 + 999999.

(** The seconds [gmtime_r] accepts where [time_t] has 64 bits: the years
    that fit the C [int] of [tm_year]. *)
Definition gmtime_min : Z := -67768040609740800.
Definition gmtime_max : Z := 67768036191676799.

(** [datetime.utcfromtimestamp(t)] for a float [t] (CPython 3): the
    fraction is scaled to microseconds in floating point and rounded half to
    even; NaN and a year outside 1..9999 raise [ValueError], a value outside
    [time_t] raises [OverflowError], one [gmtime_r] refuses, [OSError]. *)
Definition utcfromtimestamp (t : spec_float) : outcome Z :=
  match t with
  | S754_nan => Raise ValueError
  | S754_infinity _ => Raise OverflowError
  | _ =>
      let '(intpart, floatpart) := PyFloat.modf t in
      let us := PyFloat.round_half_even
                  (PyFloat.mul floatpart (PyFloat.of_Z 1000000)) in
      let '(sec, us) :=
        if 1000000 <=? us then (intpart + 1, us - 1000000)
        else if us <? 0 then (intpart - 1, us + 1000000)
        else (intpart, us) in
      if (sec <? - 2 ^ 63) || (2 ^ 63 <=? sec) then Raise OverflowError
      else if (sec <? gmtime_min) || (gmtime_max <? sec) then Raise OSError
      else
        let d := sec * 1000000 + us in
        if (d <? min_us) || (max_us <? d) then Raise ValueError
        else Return d
  end.

(** [timedelta.total_seconds()]: the microseconds divided by [10**6], as a
    true division of integers. *)
Definition total_seconds (td : Z) : spec_float :=
  PyFloat.int_truediv td 1000000.

End PyDatetime.

(** ** The store *)

(** Tag and context values: the adapter stores booleans, strings and
    integers. *)
Inductive tag_value : Type :=
  | VBool (b : bool)
  | VStr (s : string)
  | VInt (z : Z).

(** A [Span] object.  [span_parent] is the span below it on the stack when it
    was opened; [span_stop] is unset while the span is open. *)
Record span : Type := mkSpan {
  operation : string;
  span_parent : option nat;
  span_start : Z;
  span_stop : option Z
}.

(** A [TrackedRequest] object.  [active_spans] is the stack of open spans,
    top first. *)
Record tracked_request : Type := mkTrackedRequest {
  start_time : Z;
  active_spans : list nat;
  complete_spans : list nat;
  tags : gmap string tag_value;
  real_request : bool
}.

(** The state of one execution context: the objects, the binding of
    [TrackedRequest.instance()], the [Context] store, the queue of requests
    handed to the exporter, and the wall clock ([datetime.utcnow()]). *)
Record world : Type := mkWorld {
  requests : gmap nat tracked_request;
  spans : gmap nat span;
  current : option nat;
  context : gmap string tag_value;
  exported : list nat;
  clock : Z
}.

Definition set_requests (f : gmap nat tracked_request -> gmap nat tracked_request)
    (w : world) : world :=
  mkWorld (f (requests w)) (spans w) (current w) (context w) (exported w) (clock w).

Definition set_spans (f : gmap nat span -> gmap nat span) (w : world) : world :=
  mkWorld (requests w) (f (spans w)) (current w) (context w) (exported w) (clock w).

Definition set_current (c : option nat) (w : world) : world :=
  mkWorld (requests w) (spans w) c (context w) (exported w) (clock w).

Definition set_context (f : gmap string tag_value -> gmap string tag_value)
    (w : world) : world :=
  mkWorld (requests w) (spans w) (current w) (f (context w)) (exported w) (clock w).

Definition set_exported (f : list nat -> list nat) (w : world) : world :=
  mkWorld (requests w) (spans w) (current w) (context w) (f (exported w)) (clock w).

(** The calls made on the tracking engine, in order. *)
Inductive event : Type :=
  | EStartSpan (tr : nat) (op : string) (s : nat)
  | EStopSpan (tr : nat)
  | ETag (tr : nat) (key : string) (v : tag_value)
  | EMarkRealRequest (tr : nat)
  | ESetOperation (s : nat) (op : string)
  | EContextAdd (key : string) (v : tag_value)
  | EView (name : string).

(** ** Computations: state, exceptions and the trace of engine calls *)

Record run (A : Type) : Type := mkRun {
  res : outcome A;
  final : world;
  trace : list event
}.
Arguments mkRun {A} res final trace.
Arguments res {A} r.
Arguments final {A} r.
Arguments trace {A} r.

Definition M (A : Type) : Type := world -> run A.

Definition ret {A} (a : A) : M A := fun w => mkRun (Return a) w [].

Definition raise {A} (e : exn) : M A := fun w => mkRun (Raise e) w [].

Definition bind {A B} (m : M A) (k : A -> M B) : M B := fun w =>
  let r := m w in
  match res r with
  | Return a =>
      let r' := k a (final r) in
      mkRun (res r') (final r') (trace r ++ trace r')
  | Raise e => mkRun (Raise e) (final r) (trace r)
  end.

Notation "x <- m ;; k" := (bind m (fun x => k))
  (at level 100, m at next level, right associativity).
Notation "m ;;; k" := (bind m (fun _ => k))
  (at level 100, right associativity).

Definition lift {A} (o : outcome A) : M A :=
  match o with Return a => ret a | Raise e => raise e end.

Definition emit (e : event) : M unit := fun w => mkRun (Return tt) w [e].

Definition modify (f : world -> world) : M unit := fun w => mkRun (Return tt) (f w) [].

Definition gets {A} (f : world -> A) : M A := fun w => mkRun (Return (f w)) w [].

(** [try: body except Exception: handler]: every [exn] derives from
    [Exception]. *)
Definition try_except_Exception {A} (body : M A) (handler : M A) : M A := fun w =>
  let r := body w in
  match res r with
  | Return a => r
  | Raise _ =>
      let r' := handler (final r) in
      mkRun (res r') (final r') (trace r ++ trace r')
  end.

(** [try: body finally: fin]: [fin] runs in both cases; the outcome is that
    of [body] unless [fin] raises. *)
Definition try_finally {A} (body : M A) (fin : M unit) : M A := fun w =>
  let r := body w in
  let r' := fin (final r) in
  mkRun (match res r' with Return _ => res r | Raise e => Raise e end)
        (final r') (trace r ++ trace r').

(** ** The tracking engine *)

Definition set_active_spans (l : list nat) (tr : tracked_request) : tracked_request :=
  mkTrackedRequest (start_time tr) l (complete_spans tr) (tags tr) (real_request tr).

Definition set_complete_spans (l : list nat) (tr : tracked_request) : tracked_request :=
  mkTrackedRequest (start_time tr) (active_spans tr) l (tags tr) (real_request tr).

Definition set_tags (t : gmap string tag_value) (tr : tracked_request) : tracked_request :=
  mkTrackedRequest (start_time tr) (active_spans tr) (complete_spans tr) t (real_request tr).

Definition set_real_request (b : bool) (tr : tracked_request) : tracked_request :=
  mkTrackedRequest (start_time tr) (active_spans tr) (complete_spans tr) (tags tr) b.

(** The stack of open spans of the object [r]. *)
Definition stack_of (w : world) (r : nat) : list nat :=
  match requests w !! r with
  | Some tr => active_spans tr
  | None => []
  end.

(** Modelled from the spec: the class [TrackedRequest] of
    [scout_apm.core.tracked_request], which the adapter imports and which is
    not among the sources.  The operations follow section 4.1: [instance]
    looks the request of the execution context up or creates it;
    [start_span] pushes a span whose parent is the top of the stack;
    [stop_span] pops the top of the stack, stamps it, and when the stack
    becomes empty queues the request for export and detaches the instance
    binding, and does nothing on an empty stack; [current_span] peeks;
    [tag] writes the request-level tag map; [mark_real_request] sets the
    flag.  A method called through a reference reads and writes the object
    behind it, whether or not it is still the bound instance.  [start_time]
    is the attribute the adapter reads: the time of creation. *)
Module TrackedRequest.

Definition new (now : Z) : tracked_request := mkTrackedRequest now [] [] ∅ false.

Definition instance : M nat := fun w =>
  match current w with
  | Some r => mkRun (Return r) w []
  | None =>
      let r := fresh (dom (requests w)) in
      mkRun (Return r)
            (set_current (Some r) (set_requests <[r := new (clock w)]> w)) []
  end.

Definition start_span (r : nat) (op : string) : M nat := fun w =>
  let s := fresh (dom (spans w)) in
  let w1 := set_spans <[s := mkSpan op (head (stack_of w r)) (clock w) None]> w in
  let w2 := set_requests (alter (fun tr => set_active_spans (s :: active_spans tr) tr) r) w1 in
  mkRun (Return s) w2 [EStartSpan r op s].

Definition finalize (r : nat) (w : world) : world :=
  set_current None (set_exported (fun q => q ++ [r]) w).

Definition stop_span (r : nat) : M unit := fun w =>
  match stack_of w r with
  | s :: rest =>
      let w1 := set_spans
                  (alter (fun sp => mkSpan (operation sp) (span_parent sp)
                                      (span_start sp) (Some (clock w))) s) w in
      let w2 := set_requests
                  (alter (fun tr =>
                     let tr' := set_active_spans rest tr in
                     match rest with
                     | [] => set_complete_spans (complete_spans tr ++ [s]) tr'
                     | _ => tr'
                     end) r) w1 in
      mkRun (Return tt)
            (match rest with [] => finalize r w2 | _ => w2 end)
            [EStopSpan r]
  | [] => mkRun (Return tt) w [EStopSpan r]
  end.

Definition current_span (r : nat) : M (option nat) :=
  gets (fun w => head (stack_of w r)).

Definition tag (r : nat) (key : string) (v : tag_value) : M unit := fun w =>
  mkRun (Return tt)
        (set_requests (alter (fun tr => set_tags (<[key := v]> (tags tr)) tr) r) w)
        [ETag r key v].

Definition mark_real_request (r : nat) : M unit := fun w =>
  mkRun (Return tt) (set_requests (alter (set_real_request true) r) w)
        [EMarkRealRequest r].

(** The attribute [start_time] of the object [r]. *)
Definition get_start_time (r : nat) : M Z :=
  gets (fun w => match requests w !! r with
                 | Some tr => start_time tr
                 | None => clock w
                 end).

End TrackedRequest.

(** Assignment to [span.operation]. *)
Module Span.

Definition set_operation (s : nat) (op : string) : M unit := fun w =>
  mkRun (Return tt)
        (set_spans (alter (fun sp => mkSpan op (span_parent sp) (span_start sp)
                                       (span_stop sp)) s) w)
        [ESetOperation s op].

End Span.

(** Modelled from the spec: [Context.add] of [scout_apm.api.context], not
    among the sources; section 4.5: a plain associative store. *)
Module Context.

Definition add (key : string) (v : tag_value) : M unit := fun w =>
  mkRun (Return tt) (set_context <[key := v]> w) [EContextAdd key v].

End Context.

(** The collaborators the adapter imports and whose code is not among the
    sources: [ignore_path], a pure predicate on paths (section 4.4), and
    [RemoteIp.lookup_from_headers], a function of the headers that yields a
    string or raises. *)
Class Core : Type := {
  ignore_path : string -> bool;
  lookup_from_headers : gmap string string -> outcome string
}.

(** ** The host's request and response objects *)

(** What the adapter reads from and writes to a Django [HttpRequest].  An
    attribute access that can raise is an [outcome]; [user] is [None] when
    the attribute is missing or [None], and otherwise the outcome of
    [request.user.get_username()]; the two [scout_*] attributes are the ones
    the old-style middlewares set, unset on a fresh request. *)
Record HttpRequest : Type := mkRequest {
  META : gmap string string;
  path : outcome string;
  resolver_match_func_path : outcome string;
  user : option (outcome string);
  scout_middleware_span : option nat;
  scout_view_span : option nat
}.

Record HttpResponse : Type := mkResponse {
  status_code : Z;
  content : string
}.

Definition set_scout_middleware_span (s : nat) (rq : HttpRequest) : HttpRequest :=
  mkRequest (META rq) (path rq) (resolver_match_func_path rq) (user rq)
            (Some s) (scout_view_span rq).

Definition set_scout_view_span (s : nat) (rq : HttpRequest) : HttpRequest :=
  mkRequest (META rq) (path rq) (resolver_match_func_path rq) (user rq)
            (scout_middleware_span rq) (Some s).

(** ** [track_request_queue_time] *)

(** [queue_time_re.sub("", s)] with [queue_time_re = (t=|\.)]: one pass from
    the left that drops every ["t="] and every ["."] it meets. *)
Fixpoint queue_time_re_sub (s : string) : string :=
  match s with
  | EmptyString => EmptyString
  | String c rest =>
      match rest with
      | String c' rest' =>
          if Ascii.eqb c "t" && Ascii.eqb c' "=" then queue_time_re_sub rest'
          else if Ascii.eqb c "." then queue_time_re_sub rest
          else String c (queue_time_re_sub rest)
      | EmptyString => if Ascii.eqb c "." then EmptyString else String c EmptyString
      end
  end.

(** [a or b] on the results of [dict.get]: the first if it is a non-empty
    string, otherwise the second. *)
Definition py_or (a b : option string) : option string :=
  match a with
  | Some (String _ _) => a
  | _ => b
  end.

Definition header_value (request : HttpRequest) : option string :=
  py_or (META request !! "HTTP_X_QUEUE_START") (META request !! "HTTP_X_REQUEST_START").

(** The string handed to [float]: [raw_start[0:10] + "." + raw_start[10:13]]. *)
Definition timestamp_text (raw_start : string) : string :=
  (PyStr.slice 0 10 raw_start ++ "." ++ PyStr.slice 10 13 raw_start)%string.

Definition track_request_queue_time (request : HttpRequest) (tracked_request : nat)
    : M unit :=
  match header_value request with
  | None | Some EmptyString => ret tt
  | Some header_value =>
      let raw_start := queue_time_re_sub header_value in
      match PyFloat.of_str (timestamp_text raw_start) with
      | Raise e => if is_ValueError e then ret tt else raise e
      | Return timestamp =>
          parsed_start <- lift (PyDatetime.utcfromtimestamp timestamp) ;;
          start <- TrackedRequest.get_start_time tracked_request ;;
          if parsed_start >? start then ret tt
          else
            let queue_time := start - parsed_start in
            queue_time_us <- lift (PyFloat.to_int
                                     (PyFloat.mul (PyDatetime.total_seconds queue_time)
                                                  (PyFloat.of_Z 1000000))) ;;
            TrackedRequest.tag tracked_request "scout.queue_time_us" (VInt queue_time_us)
      end
  end.

(** ** The middlewares *)

(** A class with a [get_response] attribute is a function of it; a method
    that sets an attribute of the request returns the request so updated.
    The arguments [view_func], [view_args] and [view_kwargs] of
    [process_view], which no method reads, are left out.  The saved span and
    the current one are compared as objects: [hasattr(request, a) and
    tr.current_span() == request.a] holds when the attribute is set and names
    the span on top of the stack. *)

Module MiddlewareTimingMiddleware.

Definition __call__ (get_response : HttpRequest -> M HttpResponse)
    (request : HttpRequest) : M HttpResponse :=
  tracked_request <- TrackedRequest.instance ;;
  _ <- TrackedRequest.start_span tracked_request "Middleware" ;;
  track_request_queue_time request tracked_request ;;;
  try_finally (get_response request)
              (tr <- TrackedRequest.instance ;; TrackedRequest.stop_span tr).

End MiddlewareTimingMiddleware.

Module ViewTimingMiddleware.

Definition __call__ (get_response : HttpRequest -> M HttpResponse)
    (request : HttpRequest) : M HttpResponse :=
  tr <- TrackedRequest.instance ;;
  TrackedRequest.mark_real_request tr ;;;
  let operation := "Unknown" in
  _ <- TrackedRequest.start_span tr operation ;;
  response <- try_finally (get_response request) (TrackedRequest.stop_span tr) ;;
  ret response.

Definition process_view `{Core} (request : HttpRequest) : M unit :=
  try_except_Exception
    (p <- lift (path request) ;;
     (if ignore_path p
      then tr <- TrackedRequest.instance ;;
           TrackedRequest.tag tr "ignore_transaction" (VBool true)
      else ret tt) ;;;
     view_name <- lift (resolver_match_func_path request) ;;
     tr <- TrackedRequest.instance ;;
     span <- TrackedRequest.current_span tr ;;
     match span with
     | Some s =>
         Span.set_operation s ("Controller/" ++ view_name)%string ;;;
         p <- lift (path request) ;;
         Context.add "path" (VStr p) ;;;
         ip <- lift (lookup_from_headers (META request)) ;;
         Context.add "user_ip" (VStr ip) ;;;
         match user request with
         | Some get_username =>
             name <- lift get_username ;; Context.add "username" (VStr name)
         | None => ret tt
         end
     | None => ret tt
     end)
    (ret tt).

Definition process_exception : M unit :=
  tr <- TrackedRequest.instance ;; TrackedRequest.tag tr "error" (VStr "true").

End ViewTimingMiddleware.

Module OldStyleMiddlewareTimingMiddleware.

Definition process_request (request : HttpRequest) : M HttpRequest :=
  tracked_request <- TrackedRequest.instance ;;
  span <- TrackedRequest.start_span tracked_request "Middleware" ;;
  let request := set_scout_middleware_span span request in
  track_request_queue_time request tracked_request ;;;
  ret request.

Definition process_response (request : HttpRequest) (response : HttpResponse)
    : M HttpResponse :=
  tr <- TrackedRequest.instance ;;
  (match scout_middleware_span request with
   | Some saved =>
       cur <- TrackedRequest.current_span tr ;;
       if bool_decide (cur = Some saved) then TrackedRequest.stop_span tr else ret tt
   | None => ret tt
   end) ;;;
  ret response.

End OldStyleMiddlewareTimingMiddleware.

Module OldStyleViewMiddleware.

Definition process_request (request : HttpRequest) : M unit := ret tt.

Definition process_view `{Core} (request : HttpRequest)
    : M (HttpRequest * option HttpResponse) :=
  tr <- TrackedRequest.instance ;;
  p <- lift (path request) ;;
  (if ignore_path p
   then TrackedRequest.tag tr "ignore_transaction" (VBool true)
   else ret tt) ;;;
  view_name <- lift (resolver_match_func_path request) ;;
  let operation := ("Controller/" ++ view_name)%string in
  span <- TrackedRequest.start_span tr operation ;;
  TrackedRequest.mark_real_request tr ;;;
  let request := set_scout_view_span span request in
  try_except_Exception
    (match user request with
     | Some get_username =>
         name <- lift get_username ;; Context.add "username" (VStr name)
     | None => ret tt
     end)
    (ret tt) ;;;
  ret (request, None).

Definition process_response (request : HttpRequest) (response : HttpResponse)
    : M HttpResponse :=
  tr <- TrackedRequest.instance ;;
  (match scout_view_span request with
   | Some saved =>
       cur <- TrackedRequest.current_span tr ;;
       if bool_decide (cur = Some saved) then TrackedRequest.stop_span tr else ret tt
   | None => ret tt
   end) ;;;
  ret response.

Definition process_exception (request : HttpRequest) : M unit :=
  tr <- TrackedRequest.instance ;;
  match scout_view_span request with
  | Some saved =>
      cur <- TrackedRequest.current_span tr ;;
      if bool_decide (cur = Some saved)
      then TrackedRequest.tag tr "error" (VStr "true") ;;; TrackedRequest.stop_span tr
      else ret tt
  | None => ret tt
  end.

End OldStyleViewMiddleware.

(** ** The N+1 call-set detector *)

(** Modelled from the spec: the N+1 call-set detector
    ([scout_apm.core.n_plus_one_call_set]), of which the sources hold only
    the name of [NPlusOneCallSetItem.should_capture_backtrace], in a test.
    Sections 3 and 4.3: an item per normalized signature with a count of
    observations and, optionally, the backtrace captured at the observation
    that crossed the threshold; [update] normalizes the signature, increments
    or creates the count, and captures a backtrace only if the count has just
    crossed the threshold and the capture policy returns true.  [captures]
    logs each backtrace capture, by signature. *)
Module NPlusOneCallSet.

Record item : Type := mkItem {
  count : nat;
  backtrace : option (list string)
}.

Record call_set : Type := mkCallSet {
  items : gmap string item;
  captures : list string
}.

Definition empty : call_set := mkCallSet ∅ [].

(** One observation: the signature, the capture policy, a predicate on the
    item, and the call stack at that point. *)
Record call : Type := mkCall {
  signature : string;
  capture_backtrace_policy : item -> bool;
  stack : list string
}.

Section Detector.

Variable normalize : string -> string.
Variable threshold : nat.

Definition count_of (cs : call_set) (sig : string) : nat :=
  match items cs !! sig with
  | Some it => count it
  | None => 0
  end.

Definition update (c : call) (cs : call_set) : call_set :=
  let sig := normalize (signature c) in
  let old := match items cs !! sig with
             | Some it => it
             | None => mkItem 0 None
             end in
  let it := mkItem (S (count old)) (backtrace old) in
  if (count old <? threshold)%nat && (threshold <=? count it)%nat
     && capture_backtrace_policy c it
  then mkCallSet (<[sig := mkItem (count it) (Some (stack c))]> (items cs))
                 (captures cs ++ [sig])
  else mkCallSet (<[sig := it]> (items cs)) (captures cs).

(** The calls of one request, in order, from [cs]. *)
Definition feed (calls : list call) (cs : call_set) : call_set :=
  fold_left (fun acc c => update c acc) calls cs.

(** How many backtraces were captured for the signature [sig]. *)
Definition captured (cs : call_set) (sig : string) : nat :=
  List.length (filter (fun x => x = sig) (captures cs)).

End Detector.

End NPlusOneCallSet.

(** ** Notions used in the statements *)

(** The attribute [start_time] read through the reference [r]. *)
Definition start_of (w : world) (r : nat) : Z :=
  match requests w !! r with
  | Some tr => start_time tr
  | None => clock w
  end.

Definition tags_of (w : world) (r : nat) : gmap string tag_value :=
  match requests w !! r with
  | Some tr => tags tr
  | None => ∅
  end.

Definition real_request_of (w : world) (r : nat) : bool :=
  match requests w !! r with
  | Some tr => real_request tr
  | None => false
  end.

(** The request [TrackedRequest.instance()] returns in [w], and the span its
    [current_span()] returns. *)
Definition instance_of (w : world) : nat :=
  match current w with
  | Some r => r
  | None => fresh (dom (requests w))
  end.

Definition current_top (w : world) : option nat :=
  match current w with
  | Some r => head (stack_of w r)
  | None => None
  end.

(** What [track_request_queue_time] does with a request, given the start time
    of the tracked request: nothing, an exception, or the tag. *)
Inductive queue_time_result : Type :=
  | QSkip
  | QRaise (e : exn)
  | QTag (queue_time_us : Z).

Definition queue_time_decision (request : HttpRequest) (start : Z) : queue_time_result :=
  match header_value request with
  | None | Some EmptyString => QSkip
  | Some h =>
      match PyFloat.parse (timestamp_text (queue_time_re_sub h)) with
      | None => QSkip
      | Some timestamp =>
          match PyDatetime.utcfromtimestamp timestamp with
          | Raise e => QRaise e
          | Return parsed_start =>
              if parsed_start >? start then QSkip
              else
                match PyFloat.to_int
                        (PyFloat.mul (PyDatetime.total_seconds (start - parsed_start))
                                     (PyFloat.of_Z 1000000)) with
                | Raise e => QRaise e
                | Return v => QTag v
                end
          end
      end
  end.

Definition add_tag (r : nat) (key : string) (v : tag_value) (w : world) : world :=
  set_requests (alter (fun tr => set_tags (<[key := v]> (tags tr)) tr) r) w.

(** A float that is not below zero (NaN included). *)
Definition not_negative (x : spec_float) : Prop :=
  match x with
  | S754_finite true _ _ | S754_infinity true => False
  | _ => True
  end.


(** Example inputs. *)

Definition fresh_world (now : Z) : world := mkWorld ∅ ∅ None ∅ [] now.

(** A world whose bound tracked request, the object [0], started at
    [start]. *)
Definition world_started_at (start : Z) : world :=
  mkWorld {[ 0%nat := TrackedRequest.new start ]} ∅ (Some 0%nat) ∅ [] start.

Definition request_with_header (name value : string) : HttpRequest :=
  mkRequest {[ name := value ]} (Return "/hello/") (Return "app.views.hello")
            None None None.

(** A header [float] accepts ([1234567890.e5]) and
    [datetime.utcfromtimestamp] refuses (a year past 9999). *)
Definition out_of_range_request : HttpRequest :=
  request_with_header "HTTP_X_QUEUE_START" "1234567890e5".

Definition plain_request : HttpRequest :=
  mkRequest ∅ (Return "/hello/") (Return "app.views.hello") None None None.

(** The events that touch neither the span stack nor the request-level tags
    and flags: a span renamed, a context entry added. *)
Definition harmless (e : event) : Prop :=
  match e with
  | ESetOperation _ _ | EContextAdd _ _ => True
  | _ => False
  end.

(** A computation that, once a request is bound, leaves the tracked requests
    and the instance binding as they are and emits only harmless events. *)
Definition quiet {A} (m : M A) : Prop :=
  forall w : world,
    is_Some (current w) ->
    requests (final (m w)) = requests w /\
    current (final (m w)) = current w /\
    Forall harmless (trace (m w)).

(** A request for the ignored path [/health]. *)
Definition health_request : HttpRequest :=
  mkRequest ∅ (Return "/health") (Return "app.views.health") None None None.

(** A request whose [resolver_match] has no [_func_path]. *)
Definition unresolved_request : HttpRequest :=
  mkRequest ∅ (Return "/hello/") (Raise AttributeError) None None None.

(** The bound request, if any, is an object of the store. *)
Definition bound_live (w : world) : Prop :=
  match current w with
  | Some r => is_Some (requests w !! r)
  | None => True
  end.

(** The world once [TrackedRequest.instance()] has run: a request is bound. *)
Definition with_instance (w : world) : world :=
  final (TrackedRequest.instance w).

(** What both [process_response] methods do with the span saved on the
    request. *)
Definition stop_if_current (saved : option nat) (response : HttpResponse)
    : M HttpResponse :=
  tr <- TrackedRequest.instance ;;
  (match saved with
   | Some s =>
       cur <- TrackedRequest.current_span tr ;;
       if bool_decide (cur = Some s) then TrackedRequest.stop_span tr else ret tt
   | None => ret tt
   end) ;;;
  ret response.

(** A configuration that ignores [/health], and a host that answers every
    request with a 404 without resolving a view. *)
Definition health_check_core : Core :=
  {| ignore_path := fun p => String.eqb p "/health";
     lookup_from_headers := fun _ => Return "127.0.0.1" |}.

Definition not_found : HttpResponse := mkResponse 404 "Not Found".

Definition static_404 (request : HttpRequest) : M HttpResponse := ret not_found.

Definition is_view (e : event) : bool :=
  match e with EView _ => true | _ => false end.

(** How many of [calls] carry, once normalized, the signature [sig]. *)
Definition observations (normalize : string -> string) (sig : string)
    (calls : list NPlusOneCallSet.call) : nat :=
  List.length
    (filter (fun c => normalize (NPlusOneCallSet.signature c) = sig) calls).

(** The engine calls of a hook that only records details: the harmless ones
    and the [ignore_transaction] tag. *)
Definition detail (e : event) : Prop :=
  harmless e \/ exists r : nat, e = ETag r "ignore_transaction" (VBool true).

(** A computation that, in every state, leaves the span stacks and the
    real-request flags as they are and makes only such calls. *)
Definition records_details {A} (m : M A) : Prop :=
  forall w : world,
    (forall r : nat, stack_of (final (m w)) r = stack_of w r) /\
    (forall r : nat, real_request_of (final (m w)) r = real_request_of w r) /\
    Forall detail (trace (m w)).

(** A computation that leaves the request [r] bound when it finds it bound. *)
Definition keeps_binding {A} (r : nat) (m : M A) : Prop :=
  forall w : world, current w = Some r -> current (final (m w)) = Some r.

(** ** [track_request_queue_time]: what it does *)

Lemma track_request_queue_time_spec (request : HttpRequest) (r : nat) (w : world) :
  track_request_queue_time request r w =
  match queue_time_decision request (start_of w r) with
  | QSkip => mkRun (Return tt) w []
  | QRaise e => mkRun (Raise e) w []
  | QTag v => mkRun (Return tt) (add_tag r "scout.queue_time_us" (VInt v) w)
                    [ETag r "scout.queue_time_us" (VInt v)]
  end.
Proof.
  unfold track_request_queue_time, queue_time_decision.
  destruct (header_value request) as [[|c h]|]; try reflexivity.
  unfold PyFloat.of_str.
  destruct (PyFloat.parse _) as [ts|]; [|reflexivity].
  unfold bind, lift, TrackedRequest.get_start_time, gets.
  destruct (PyDatetime.utcfromtimestamp ts) as [p|e]; [|reflexivity].
  cbn [ret raise res final trace app].
  fold (start_of w r).
  destruct (p >? start_of w r); [reflexivity|].
  destruct (PyFloat.to_int _) as [v|e]; reflexivity.
Qed.

Lemma binary_round_aux_sign (s : bool) (m e : Z) (l : location) :
  match binary_round_aux PyFloat.prec PyFloat.emax s m e l with
  | S754_zero s' | S754_infinity s' | S754_finite s' _ _ => s' = s
  | S754_nan => True
  end.
Proof.
  unfold binary_round_aux.
  destruct (shr_fexp _ _ m e l) as [mrs' e'].
  destruct (shr_fexp _ _ _ e' loc_Exact) as [mrs'' e''].
  destruct (shr_m mrs''); [reflexivity| |exact I].
  destruct (e'' <=? _); reflexivity.
Qed.

Lemma total_seconds_not_negative (td : Z) :
  0 <= td -> not_negative (PyDatetime.total_seconds td).
Proof.
  intros Htd. unfold PyDatetime.total_seconds, PyFloat.int_truediv.
  destruct td as [|p|p]; [exact I| |lia].
  unfold SFdiv. destruct (SFdiv_core_binary _ _ _ _ _ _) as [[mz ez] lz].
  pose proof (binary_round_aux_sign (xorb false false) mz ez lz) as H.
  destruct (binary_round_aux _ _ _ _ _ _) as [s|s| |s m e]; simpl in *; subst; exact I.
Qed.

Lemma to_int_mul_not_negative (x : spec_float) (v : Z) :
  not_negative x ->
  PyFloat.to_int (PyFloat.mul x (PyFloat.of_Z 1000000)) = Return v -> 0 <= v.
Proof.
  intros Hx.
  change (PyFloat.of_Z 1000000) with (S754_finite false 8589934592000000 (-33)).
  unfold PyFloat.mul.
  destruct x as [s|s| |s m e]; simpl SFmul.
  - intros [= <-]. lia.
  - discriminate.
  - discriminate.
  - destruct s; [destruct Hx|].
    pose proof (binary_round_aux_sign (xorb false false) (Z.pos (m * 8589934592000000)) (e + -33) loc_Exact) as H.
    destruct (binary_round_aux _ _ _ _ _ _) as [s|s| |s m' e']; simpl in *; subst.
    + intros [= <-]. lia.
    + discriminate.
    + discriminate.
    + intros [= <-]. destruct (0 <=? e').
      * apply Z.shiftl_nonneg. lia.
      * apply Z.shiftr_nonneg. lia.
Qed.

Lemma future_timestamp_skipped (request : HttpRequest) (r : nat) (w : world)
    (h : string) (timestamp : spec_float) (parsed_start : Z) :
  header_value request = Some h ->
  PyFloat.of_str (timestamp_text (queue_time_re_sub h)) = Return timestamp ->
  PyDatetime.utcfromtimestamp timestamp = Return parsed_start ->
  parsed_start > start_of w r ->
  track_request_queue_time request r w = mkRun (Return tt) w [].
Proof.
  intros Hh Hts Hp Hgt.
  rewrite track_request_queue_time_spec. unfold queue_time_decision.
  rewrite Hh. destruct h as [|c h]; [reflexivity|].
  unfold PyFloat.of_str in Hts.
  destruct (PyFloat.parse _) as [ts|]; [|discriminate].
  injection Hts as ->. rewrite Hp.
  destruct (Z.gtb_spec parsed_start (start_of w r)) as [_|Hle]; [reflexivity|lia].
Qed.

Lemma start_of_lookup (w : world) (r : nat) (tr : tracked_request) :
  requests w !! r = Some tr -> start_of w r = start_time tr.
Proof. intros H. unfold start_of. rewrite H. reflexivity. Qed.

Lemma tags_of_add_tag (w : world) (r : nat) (tr : tracked_request)
    (key : string) (v : tag_value) :
  requests w !! r = Some tr ->
  tags_of (add_tag r key v w) r = <[key := v]> (tags tr).
Proof.
  intros H. unfold tags_of, add_tag. simpl.
  rewrite lookup_alter_eq, H. reflexivity.
Qed.

Lemma header_value_queue_start (request : HttpRequest) (c : ascii) (v : string) :
  META request !! "HTTP_X_QUEUE_START" = Some (String c v) ->
  header_value request = Some (String c v).
Proof. intros H. unfold header_value. rewrite H. reflexivity. Qed.

Lemma header_value_request_start (request : HttpRequest) (v : string) :
  META request !! "HTTP_X_QUEUE_START" = None ->
  META request !! "HTTP_X_REQUEST_START" = Some v ->
  header_value request = Some v.
Proof. intros H1 H2. unfold header_value. rewrite H1, H2. reflexivity. Qed.

(** C1. With the header [X-Queue-Start], or [X-Request-Start] when the former
    is absent, of value ["t=1600000000.123000"] and a tracked request that
    started 0.5 s after the epoch time 1600000000.123,
    [track_request_queue_time] returns and adds the request-level tag
    [scout.queue_time_us] with value 500000; and for any header value whose
    parsed timestamp is strictly later than the start time of the tracked
    request it returns and adds no tag. *)
Theorem queue_time_tagging (request : HttpRequest) (r : nat) (w : world)
    (tr : tracked_request) :
  requests w !! r = Some tr ->
  ((META request !! "HTTP_X_QUEUE_START" = Some "t=1600000000.123000" \/
    (META request !! "HTTP_X_QUEUE_START" = None /\
     META request !! "HTTP_X_REQUEST_START" = Some "t=1600000000.123000")) ->
   start_time tr = 1600000000123000 + 500000 ->
   let out := track_request_queue_time request r w in
   res out = Return tt /\
   trace out = [ETag r "scout.queue_time_us" (VInt 500000)] /\
   tags_of (final out) r = <["scout.queue_time_us" := VInt 500000]> (tags tr))
  /\
  (forall (h : string) (timestamp : spec_float) (parsed_start : Z),
     header_value request = Some h ->
     PyFloat.of_str (timestamp_text (queue_time_re_sub h)) = Return timestamp ->
     PyDatetime.utcfromtimestamp timestamp = Return parsed_start ->
     parsed_start > start_time tr ->
     track_request_queue_time request r w = mkRun (Return tt) w []).
Proof.
  intros Hr. split.
  - intros Hh Hstart out.
    assert (header_value request = Some "t=1600000000.123000") as Hv.
    { destruct Hh as [Hq|[Hq Hs]].
      - apply header_value_queue_start. exact Hq.
      - apply header_value_request_start; assumption. }
    assert (queue_time_decision request (start_of w r) = QTag 500000) as Hd.
    { unfold queue_time_decision.
      rewrite Hv, (start_of_lookup _ _ _ Hr), Hstart. vm_compute. reflexivity. }
    subst out. rewrite track_request_queue_time_spec, Hd. cbn [res trace final].
    repeat split. apply tags_of_add_tag. exact Hr.
  - intros h ts p Hh Hts Hp Hgt.
    apply (future_timestamp_skipped request r w h ts p); try assumption.
    rewrite (start_of_lookup _ _ _ Hr). exact Hgt.
Qed.

Lemma queue_time_tagging_witness :
  (let out := track_request_queue_time
                (request_with_header "HTTP_X_REQUEST_START" "t=1600000000.123000")
                0%nat (world_started_at 1600000000623000) in
   res out = Return tt /\
   trace out = [ETag 0%nat "scout.queue_time_us" (VInt 500000)] /\
   tags_of (final out) 0%nat = <["scout.queue_time_us" := VInt 500000]> ∅)
  /\
  track_request_queue_time
    (request_with_header "HTTP_X_QUEUE_START" "t=1600000001.000000")
    0%nat (world_started_at 1600000000623000)
  = mkRun (Return tt) (world_started_at 1600000000623000) [].
Proof.
  split.
  - apply (proj1 (queue_time_tagging
                    (request_with_header "HTTP_X_REQUEST_START" "t=1600000000.123000")
                    0%nat (world_started_at 1600000000623000)
                    (TrackedRequest.new 1600000000623000) eq_refl)).
    + right. split; reflexivity.
    + reflexivity.
  - apply (proj2 (queue_time_tagging
                    (request_with_header "HTTP_X_QUEUE_START" "t=1600000001.000000")
                    0%nat (world_started_at 1600000000623000)
                    (TrackedRequest.new 1600000000623000) eq_refl)
                 "t=1600000001.000000"
                 (S754_finite false 6710886404194304 (-22))
                 1600000001000000).
    + reflexivity.
    + vm_compute. reflexivity.
    + vm_compute. reflexivity.
    + reflexivity.
Defined.

Lemma queue_time_decision_not_negative (request : HttpRequest) (start v : Z) :
  queue_time_decision request start = QTag v -> 0 <= v.
Proof.
  unfold queue_time_decision.
  destruct (header_value request) as [[|c h]|]; try discriminate.
  destruct (PyFloat.parse _) as [ts|]; [|discriminate].
  destruct (PyDatetime.utcfromtimestamp ts) as [p|e]; [|discriminate].
  destruct (Z.gtb_spec p start) as [|Hle]; [discriminate|].
  destruct (PyFloat.to_int _) as [v'|e] eqn:Hint; [|discriminate].
  intros [= <-].
  apply (to_int_mul_not_negative _ _ (total_seconds_not_negative (start - p) ltac:(lia)) Hint).
Qed.

(** C4. For every header value, [track_request_queue_time] either adds no
    tag, leaving the state as it was, or returns having added the tag
    [scout.queue_time_us] with a non-negative integer; and when the parsed
    header timestamp is strictly later than the start time of the tracked
    request it returns without tagging. *)
Theorem future_timestamps_rejected (request : HttpRequest) (r : nat) (w : world) :
  let out := track_request_queue_time request r w in
  ((trace out = [] /\ final out = w) \/
   (exists v : Z, 0 <= v /\
      out = mkRun (Return tt) (add_tag r "scout.queue_time_us" (VInt v) w)
                  [ETag r "scout.queue_time_us" (VInt v)]))
  /\
  (forall (h : string) (timestamp : spec_float) (parsed_start : Z),
     header_value request = Some h ->
     PyFloat.of_str (timestamp_text (queue_time_re_sub h)) = Return timestamp ->
     PyDatetime.utcfromtimestamp timestamp = Return parsed_start ->
     parsed_start > start_of w r ->
     out = mkRun (Return tt) w []).
Proof.
  intros out. split.
  - subst out. rewrite track_request_queue_time_spec.
    destruct (queue_time_decision request (start_of w r)) as [|e|v] eqn:Hd.
    + left. split; reflexivity.
    + left. split; reflexivity.
    + right. exists v. split; [|reflexivity].
      apply (queue_time_decision_not_negative _ _ _ Hd).
  - intros h ts p. apply future_timestamp_skipped.
Qed.

Lemma future_timestamps_rejected_witness :
  track_request_queue_time
    (request_with_header "HTTP_X_QUEUE_START" "t=1600000001.000000")
    0%nat (world_started_at 1600000000623000)
  = mkRun (Return tt) (world_started_at 1600000000623000) [].
Proof.
  apply (proj2 (future_timestamps_rejected
                  (request_with_header "HTTP_X_QUEUE_START" "t=1600000001.000000")
                  0%nat (world_started_at 1600000000623000))
               "t=1600000001.000000"
               (S754_finite false 6710886404194304 (-22))
               1600000001000000).
  - reflexivity.
  - vm_compute. reflexivity.
  - vm_compute. reflexivity.
  - reflexivity.
Defined.

(** The guard of lines 26-29: a header whose text [float] refuses is skipped,
    with the state as it was. *)
Lemma unparsable_header_skipped (request : HttpRequest) (r : nat) (w : world)
    (h : string) :
  header_value request = Some h ->
  (forall f : spec_float,
     PyFloat.of_str (timestamp_text (queue_time_re_sub h)) <> Return f) ->
  track_request_queue_time request r w = mkRun (Return tt) w [].
Proof.
  intros Hh Hbad.
  rewrite track_request_queue_time_spec. unfold queue_time_decision.
  rewrite Hh. destruct h as [|c h]; [reflexivity|].
  unfold PyFloat.of_str in Hbad.
  destruct (PyFloat.parse _) as [ts|]; [|reflexivity].
  destruct (Hbad ts). reflexivity.
Qed.

(** C5 (the code departs from it).  The [except ValueError] of lines 28-29
    guards [float] only.  A header whose text [float] refuses is skipped;
    but from the header [X-Queue-Start: 1234567890e5] no valid timestamp can
    be parsed either: the text handed to [float] is ["1234567890.e5"], read
    as 123456789000000.0, which [datetime.utcfromtimestamp] refuses with
    [ValueError], and [track_request_queue_time] raises that error to its
    caller, in every state, instead of returning. *)
Theorem malformed_header_raises_to_caller (r : nat) (w : world) :
  header_value out_of_range_request = Some "1234567890e5" /\
  timestamp_text (queue_time_re_sub "1234567890e5") = "1234567890.e5" /\
  PyFloat.of_str "1234567890.e5" = Return (PyFloat.of_Z 123456789000000) /\
  PyDatetime.utcfromtimestamp (PyFloat.of_Z 123456789000000) = Raise ValueError /\
  track_request_queue_time out_of_range_request r w = mkRun (Raise ValueError) w [] /\
  (forall (request : HttpRequest) (h : string),
     header_value request = Some h ->
     (forall f : spec_float,
        PyFloat.of_str (timestamp_text (queue_time_re_sub h)) <> Return f) ->
     track_request_queue_time request r w = mkRun (Return tt) w []).
Proof.
  split; [reflexivity|].
  split; [vm_compute; reflexivity|].
  split; [vm_compute; reflexivity|].
  split; [vm_compute; reflexivity|].
  split.
  - rewrite track_request_queue_time_spec.
    generalize (start_of w r). intros start.
    assert (queue_time_decision out_of_range_request start = QRaise ValueError) as ->
      by (vm_compute; reflexivity).
    reflexivity.
  - intros request h. apply unparsable_header_skipped.
Qed.

(** ** The resolution of the header parser *)








(** ** Running the middlewares *)

(** A computation is followed step by step: each rule gives the run of a
    compound from the runs of its parts. *)

Lemma run_eta {A} (x : run A) (o : outcome A) :
  res x = o -> x = mkRun o (final x) (trace x).
Proof. intros <-. destruct x; reflexivity. Qed.

Lemma run_bind_return {A B} (m : M A) (k : A -> M B) (w w1 w2 : world)
    (a : A) (o : outcome B) (t t1 t2 : list event) :
  m w = mkRun (Return a) w1 t1 ->
  k a w1 = mkRun o w2 t2 ->
  t = t1 ++ t2 ->
  bind m k w = mkRun o w2 t.
Proof.
  intros Hm Hk ->. unfold bind. rewrite Hm. cbn [res final trace].
  rewrite Hk. reflexivity.
Qed.

Lemma run_bind_raise {A B} (m : M A) (k : A -> M B) (w w1 : world)
    (e : exn) (t1 : list event) :
  m w = mkRun (Raise e) w1 t1 ->
  bind m k w = mkRun (Raise e) w1 t1.
Proof. intros Hm. unfold bind. rewrite Hm. reflexivity. Qed.

Lemma try_finally_run {A} (body : M A) (fin : M unit) (w w1 w2 : world)
    (o : outcome A) (t t1 t2 : list event) :
  body w = mkRun o w1 t1 ->
  fin w1 = mkRun (Return tt) w2 t2 ->
  t = t1 ++ t2 ->
  try_finally body fin w = mkRun o w2 t.
Proof.
  intros Hb Hf ->. unfold try_finally. rewrite Hb. cbn [res final trace].
  rewrite Hf. reflexivity.
Qed.

Lemma try_except_Exception_return {A} (body handler : M A) (w w1 : world)
    (a : A) (t1 : list event) :
  body w = mkRun (Return a) w1 t1 ->
  try_except_Exception body handler w = mkRun (Return a) w1 t1.
Proof. intros Hb. unfold try_except_Exception. rewrite Hb. reflexivity. Qed.

Lemma try_except_Exception_raise {A} (body handler : M A) (w w1 w2 : world)
    (e : exn) (o : outcome A) (t t1 t2 : list event) :
  body w = mkRun (Raise e) w1 t1 ->
  handler w1 = mkRun o w2 t2 ->
  t = t1 ++ t2 ->
  try_except_Exception body handler w = mkRun o w2 t.
Proof.
  intros Hb Hh ->. unfold try_except_Exception. rewrite Hb.
  cbn [res final trace]. rewrite Hh. reflexivity.
Qed.

(** *** [TrackedRequest.instance()] *)

Lemma fresh_request_unused (w : world) :
  requests w !! fresh (dom (requests w)) = None.
Proof. apply not_elem_of_dom. apply is_fresh. Qed.

Lemma fresh_span_unused (w : world) :
  spans w !! fresh (dom (spans w)) = None.
Proof. apply not_elem_of_dom. apply is_fresh. Qed.

Lemma instance_run (w : world) :
  TrackedRequest.instance w = mkRun (Return (instance_of w)) (with_instance w) [].
Proof.
  unfold with_instance, TrackedRequest.instance, instance_of.
  destruct (current w); reflexivity.
Qed.

Lemma current_with_instance (w : world) :
  current (with_instance w) = Some (instance_of w).
Proof.
  unfold with_instance, TrackedRequest.instance, instance_of.
  destruct (current w) eqn:E; simpl; [exact E|reflexivity].
Qed.

Lemma instance_bound (w : world) (r : nat) :
  current w = Some r -> TrackedRequest.instance w = mkRun (Return r) w [].
Proof. intros H. unfold TrackedRequest.instance. rewrite H. reflexivity. Qed.

Lemma spans_with_instance (w : world) : spans (with_instance w) = spans w.
Proof.
  unfold with_instance, TrackedRequest.instance. destruct (current w); reflexivity.
Qed.

Lemma stack_of_with_instance (w : world) (r : nat) :
  stack_of (with_instance w) r = stack_of w r.
Proof.
  unfold with_instance, TrackedRequest.instance, stack_of.
  destruct (current w) as [c|]; [reflexivity|]. simpl.
  destruct (decide (r = fresh (dom (requests w)))) as [->|Hne].
  - rewrite lookup_insert_eq, fresh_request_unused. reflexivity.
  - rewrite lookup_insert_ne by congruence. reflexivity.
Qed.

Lemma current_top_with_instance (w : world) :
  head (stack_of (with_instance w) (instance_of w)) = current_top w.
Proof.
  rewrite stack_of_with_instance. unfold instance_of, current_top, stack_of.
  destruct (current w) as [c|]; [reflexivity|].
  rewrite fresh_request_unused. reflexivity.
Qed.

Lemma instance_live (w : world) :
  bound_live w -> is_Some (requests (with_instance w) !! instance_of w).
Proof.
  unfold bound_live, with_instance, TrackedRequest.instance, instance_of.
  destruct (current w) as [c|]; [intros H; exact H|intros _]. simpl.
  rewrite lookup_insert_eq. eexists. reflexivity.
Qed.

(** *** [stop_span] *)

Lemma stop_span_run (r : nat) (w : world) :
  TrackedRequest.stop_span r w
  = mkRun (Return tt) (final (TrackedRequest.stop_span r w)) [EStopSpan r].
Proof.
  unfold TrackedRequest.stop_span. destruct (stack_of w r); reflexivity.
Qed.

Lemma stack_of_stop_span (r r' : nat) (w : world) :
  stack_of (final (TrackedRequest.stop_span r w)) r'
  = if decide (r' = r) then tail (stack_of w r) else stack_of w r'.
Proof.
  unfold TrackedRequest.stop_span.
  destruct (stack_of w r) as [|s rest] eqn:Hst.
  - simpl. destruct (decide (r' = r)) as [->|]; [exact Hst|reflexivity].
  - assert (stack_of
              (set_requests
                 (alter (fun tr =>
                    let tr' := set_active_spans rest tr in
                    match rest with
                    | [] => set_complete_spans (complete_spans tr ++ [s]) tr'
                    | _ => tr'
                    end) r)
                 (set_spans
                    (alter (fun sp => mkSpan (operation sp) (span_parent sp)
                                        (span_start sp) (Some (clock w))) s) w)) r'
            = if decide (r' = r) then rest else stack_of w r') as Hgoal.
    { unfold stack_of in *. simpl.
      destruct (decide (r' = r)) as [->|Hne].
      - rewrite lookup_alter_eq.
        destruct (requests w !! r) as [tr|]; [|discriminate].
        simpl. destruct rest; reflexivity.
      - rewrite lookup_alter_ne by congruence. reflexivity. }
    cbn [final tail]. destruct rest; exact Hgoal.
Qed.

Lemma real_request_of_stop_span (r r' : nat) (w : world) :
  real_request_of (final (TrackedRequest.stop_span r w)) r' = real_request_of w r'.
Proof.
  unfold TrackedRequest.stop_span.
  destruct (stack_of w r) as [|s rest]; [reflexivity|].
  assert (forall f : tracked_request -> tracked_request,
            (forall tr, real_request (f tr) = real_request tr) ->
            forall m : gmap nat tracked_request,
              match alter f r m !! r' with Some tr => real_request tr | None => false end
              = match m !! r' with Some tr => real_request tr | None => false end)
    as Halter.
  { intros f Hf m. destruct (decide (r' = r)) as [->|Hne].
    - rewrite lookup_alter_eq. destruct (m !! r); simpl; [apply Hf|reflexivity].
    - rewrite lookup_alter_ne by congruence. reflexivity. }
  unfold real_request_of. destruct rest; simpl; apply Halter;
    intros tr; reflexivity.
Qed.

(** *** The old-style [process_response] methods *)

Lemma stop_if_current_run (saved : option nat) (response : HttpResponse) (w : world) :
  stop_if_current saved response w =
  match saved with
  | Some s =>
      if bool_decide (current_top w = Some s)
      then mkRun (Return response)
                 (final (TrackedRequest.stop_span (instance_of w) (with_instance w)))
                 [EStopSpan (instance_of w)]
      else mkRun (Return response) (with_instance w) []
  | None => mkRun (Return response) (with_instance w) []
  end.
Proof.
  unfold stop_if_current.
  destruct saved as [s|].
  - destruct (bool_decide (current_top w = Some s)) eqn:Hcur.
    + eapply run_bind_return; [apply instance_run| |reflexivity].
      eapply run_bind_return; [|reflexivity|].
      * eapply run_bind_return; [reflexivity| |reflexivity].
        cbn [res final trace]. rewrite current_top_with_instance, Hcur.
        apply stop_span_run.
      * reflexivity.
    + eapply run_bind_return; [apply instance_run| |reflexivity].
      eapply run_bind_return; [|reflexivity|].
      * eapply run_bind_return; [reflexivity| |reflexivity].
        cbn [res final trace]. rewrite current_top_with_instance, Hcur.
        reflexivity.
      * reflexivity.
  - eapply run_bind_return; [apply instance_run| |reflexivity].
    eapply run_bind_return; reflexivity.
Qed.

Lemma stop_if_current_guarded (saved : option nat) (response : HttpResponse)
    (w : world) :
  let out := stop_if_current saved response w in
  res out = Return response /\
  (forall tr : nat, In (EStopSpan tr) (trace out) ->
     exists s : nat, saved = Some s /\ current_top w = Some s) /\
  (saved = None \/ current_top w <> saved ->
     trace out = [] /\ forall r : nat, stack_of (final out) r = stack_of w r) /\
  (forall s : nat, saved = Some s -> current_top w = Some s ->
     trace out = [EStopSpan (instance_of w)] /\
     stack_of (final out) (instance_of w) = tail (stack_of w (instance_of w))).
Proof.
  intros out. subst out. rewrite stop_if_current_run.
  destruct saved as [s|].
  - destruct (bool_decide_reflect (current_top w = Some s)) as [Hcur|Hcur];
      cbn [res final trace].
    + split; [reflexivity|]. split; [|split].
      * intros tr _. exists s. split; [reflexivity|exact Hcur].
      * intros [Habs|Habs]; [discriminate|]. destruct (Habs Hcur).
      * intros s' _ _. split; [reflexivity|].
        rewrite stack_of_stop_span, stack_of_with_instance.
        destruct (decide (instance_of w = instance_of w)); [reflexivity|congruence].
    + split; [reflexivity|]. split; [|split].
      * intros tr [].
      * intros _. split; [reflexivity|]. intros r. apply stack_of_with_instance.
      * intros s' [= <-] Hs. destruct (Hcur Hs).
  - cbn [res final trace]. split; [reflexivity|]. split; [|split].
    + intros tr [].
    + intros _. split; [reflexivity|]. intros r. apply stack_of_with_instance.
    + intros s' [=].
Qed.

(** C6. [process_response] of [OldStyleMiddlewareTimingMiddleware] and of
    [OldStyleViewMiddleware] returns the response it was given; it calls
    [stop_span] only when the span saved on the request is the current span
    of the tracked request, and then exactly once, popping that span; when no
    span was saved or the saved span is not the current one, it calls nothing
    and leaves every span stack as it was. *)
Theorem process_response_stops_only_saved_span (request : HttpRequest)
    (response : HttpResponse) (w : world) :
  let checks (saved : option nat) (out : run HttpResponse) :=
    res out = Return response /\
    (forall tr : nat, In (EStopSpan tr) (trace out) ->
       exists s : nat, saved = Some s /\ current_top w = Some s) /\
    (saved = None \/ current_top w <> saved ->
       trace out = [] /\ forall r : nat, stack_of (final out) r = stack_of w r) /\
    (forall s : nat, saved = Some s -> current_top w = Some s ->
       trace out = [EStopSpan (instance_of w)] /\
       stack_of (final out) (instance_of w) = tail (stack_of w (instance_of w))) in
  checks (scout_middleware_span request)
         (OldStyleMiddlewareTimingMiddleware.process_response request response w) /\
  checks (scout_view_span request)
         (OldStyleViewMiddleware.process_response request response w).
Proof.
  intros checks. subst checks. split.
  - apply (stop_if_current_guarded (scout_middleware_span request) response w).
  - apply (stop_if_current_guarded (scout_view_span request) response w).
Qed.

Lemma process_response_stops_only_saved_span_witness :
  trace (OldStyleViewMiddleware.process_response plain_request not_found
           (world_started_at 0)) = [] /\
  forall r : nat,
    stack_of (final (OldStyleViewMiddleware.process_response plain_request not_found
                       (world_started_at 0))) r
    = stack_of (world_started_at 0) r.
Proof.
  apply (proj1 (proj2 (proj2 (proj2
           (process_response_stops_only_saved_span plain_request not_found
              (world_started_at 0)))))).
  left. reflexivity.
Defined.

(** *** The new-style [__call__] methods *)

Lemma real_request_of_start_span (r r' : nat) (op : string) (w : world) :
  real_request_of (final (TrackedRequest.start_span r op w)) r' = real_request_of w r'.
Proof.
  unfold TrackedRequest.start_span, real_request_of. simpl.
  destruct (decide (r' = r)) as [->|Hne].
  - rewrite lookup_alter_eq. destruct (requests w !! r); reflexivity.
  - rewrite lookup_alter_ne by congruence. reflexivity.
Qed.

Lemma real_request_of_mark_real_request (r : nat) (w : world) :
  is_Some (requests w !! r) ->
  real_request_of (final (TrackedRequest.mark_real_request r w)) r = true.
Proof.
  intros [tr Htr]. unfold TrackedRequest.mark_real_request, real_request_of. simpl.
  rewrite lookup_alter_eq, Htr. reflexivity.
Qed.

Lemma ViewTimingMiddleware_call_run (get_response : HttpRequest -> M HttpResponse)
    (request : HttpRequest) (w : world) :
  let r := instance_of w in
  let w1 := final (TrackedRequest.mark_real_request r (with_instance w)) in
  let s := fresh (dom (spans w1)) in
  let w2 := final (TrackedRequest.start_span r "Unknown" w1) in
  let host := get_response request w2 in
  ViewTimingMiddleware.__call__ get_response request w
  = mkRun (res host)
          (final (TrackedRequest.stop_span r (final host)))
          ([EMarkRealRequest r; EStartSpan r "Unknown" s] ++ trace host ++ [EStopSpan r]).
Proof.
  intros r w1 s w2 host. unfold ViewTimingMiddleware.__call__.
  eapply run_bind_return; [apply instance_run| |reflexivity].
  eapply run_bind_return; [reflexivity| |reflexivity].
  eapply run_bind_return; [reflexivity| |reflexivity].
  destruct (res host) as [a|e] eqn:Hres.
  - eapply run_bind_return.
    + eapply try_finally_run;
        [exact (run_eta host _ Hres)|apply stop_span_run|reflexivity].
    + reflexivity.
    + cbn [app]. rewrite app_nil_r. reflexivity.
  - eapply run_bind_raise.
    eapply try_finally_run;
      [exact (run_eta host _ Hres)|apply stop_span_run|reflexivity].
Qed.

(** C2 (the code departs from it).  [ViewTimingMiddleware.__call__] calls
    [mark_real_request] before it calls [get_response]: a request the host
    answers with a 404 without any view running ends with the flag
    [real_request] set.  Evaluated at the host [static_404], from any world
    whose bound request is live. *)
Theorem ViewTimingMiddleware_call_marks_unreached_view (request : HttpRequest)
    (w : world) :
  bound_live w ->
  let out := ViewTimingMiddleware.__call__ static_404 request w in
  let r := instance_of w in
  res out = Return not_found /\
  trace out = [EMarkRealRequest r; EStartSpan r "Unknown" (fresh (dom (spans w)));
               EStopSpan r] /\
  existsb is_view (trace out) = false /\
  real_request_of (final out) r = true.
Proof.
  intros Hlive out r. subst out.
  rewrite ViewTimingMiddleware_call_run.
  change (spans (final (TrackedRequest.mark_real_request (instance_of w)
                          (with_instance w))))
    with (spans (with_instance w)).
  rewrite spans_with_instance. cbn [res final trace static_404 ret app].
  repeat split.
  rewrite real_request_of_stop_span, real_request_of_start_span.
  apply real_request_of_mark_real_request. apply instance_live. exact Hlive.
Qed.

Lemma ViewTimingMiddleware_call_marks_unreached_view_witness :
  real_request_of
    (final (ViewTimingMiddleware.__call__ static_404 plain_request (fresh_world 0)))
    (instance_of (fresh_world 0)) = true.
Proof.
  apply (ViewTimingMiddleware_call_marks_unreached_view plain_request (fresh_world 0)).
  exact I.
Defined.

Lemma MiddlewareTimingMiddleware_call_raises
    (get_response : HttpRequest -> M HttpResponse) (request : HttpRequest)
    (w : world) (e : exn) :
  let r := instance_of w in
  let w1 := final (TrackedRequest.start_span r "Middleware" (with_instance w)) in
  queue_time_decision request (start_of w1 r) = QRaise e ->
  MiddlewareTimingMiddleware.__call__ get_response request w
  = mkRun (Raise e) w1 [EStartSpan r "Middleware" (fresh (dom (spans w)))].
Proof.
  intros r w1 Hd. unfold MiddlewareTimingMiddleware.__call__.
  eapply run_bind_return; [apply instance_run| |].
  - eapply run_bind_return; [reflexivity| |reflexivity].
    eapply run_bind_raise.
    etransitivity; [apply track_request_queue_time_spec|].
    match goal with
    | |- context [queue_time_decision ?a ?b] =>
        change (queue_time_decision a b)
          with (queue_time_decision request (start_of w1 r))
    end.
    rewrite Hd. reflexivity.
  - rewrite spans_with_instance. reflexivity.
Qed.

Lemma MiddlewareTimingMiddleware_call_run
    (get_response : HttpRequest -> M HttpResponse) (request : HttpRequest)
    (w : world) :
  let r := instance_of w in
  let w1 := final (TrackedRequest.start_span r "Middleware" (with_instance w)) in
  let started := EStartSpan r "Middleware" (fresh (dom (spans w))) in
  forall (w2 : world) (tagged : list event),
    track_request_queue_time request r w1 = mkRun (Return tt) w2 tagged ->
    let host := get_response request w2 in
    let r' := instance_of (final host) in
    MiddlewareTimingMiddleware.__call__ get_response request w
    = mkRun (res host)
            (final (TrackedRequest.stop_span r' (with_instance (final host))))
            (started :: tagged ++ trace host ++ [EStopSpan r']).
Proof.
  intros r w1 started w2 tagged Hq host r'.
  unfold MiddlewareTimingMiddleware.__call__.
  eapply run_bind_return; [apply instance_run| |].
  - eapply run_bind_return; [reflexivity| |reflexivity].
    eapply run_bind_return; [exact Hq| |reflexivity].
    eapply try_finally_run; [exact (run_eta host _ eq_refl)| |reflexivity].
    eapply run_bind_return; [apply instance_run|apply stop_span_run|reflexivity].
  - subst started. rewrite spans_with_instance. reflexivity.
Qed.

Lemma out_of_range_decision (start : Z) :
  queue_time_decision out_of_range_request start = QRaise ValueError.
Proof. vm_compute. reflexivity. Qed.

(** C7 (the code departs from it).  [MiddlewareTimingMiddleware.__call__]
    calls [track_request_queue_time] after [start_span] and before its
    [try]: with the header [X-Queue-Start: 1234567890e5], which [float]
    accepts and [datetime.utcfromtimestamp] refuses, it raises [ValueError]
    having started a span, without stopping it and without calling
    [get_response]. *)
Theorem MiddlewareTimingMiddleware_call_raises_on_out_of_range_header
    (get_response : HttpRequest -> M HttpResponse) (w : world) :
  let out := MiddlewareTimingMiddleware.__call__ get_response out_of_range_request w in
  res out = Raise ValueError /\
  trace out = [EStartSpan (instance_of w) "Middleware" (fresh (dom (spans w)))] /\
  final out = final (TrackedRequest.start_span (instance_of w) "Middleware"
                       (with_instance w)).
Proof.
  intros out. subst out.
  rewrite (MiddlewareTimingMiddleware_call_raises get_response out_of_range_request
             w ValueError (out_of_range_decision _)).
  repeat split.
Qed.

(** *** The [process_view] hooks *)

Lemma quiet_ret {A} (a : A) : quiet (ret a).
Proof. intros w _. repeat split. constructor. Qed.

Lemma quiet_raise {A} (e : exn) : quiet (@raise A e).
Proof. intros w _. repeat split. constructor. Qed.

Lemma quiet_lift {A} (o : outcome A) : quiet (lift o).
Proof. destruct o; [apply quiet_ret|apply quiet_raise]. Qed.

Lemma quiet_bind {A B} (m : M A) (k : A -> M B) :
  quiet m -> (forall a : A, quiet (k a)) -> quiet (bind m k).
Proof.
  intros Hm Hk w Hb. unfold bind.
  destruct (Hm w Hb) as (Hr & Hc & Ht).
  destruct (m w) as [[a|e] w1 t1]; cbn [res final trace] in *.
  - assert (is_Some (current w1)) as Hb1 by (rewrite Hc; exact Hb).
    destruct (Hk a w1 Hb1) as (Hr' & Hc' & Ht').
    split; [congruence|]. split; [congruence|].
    apply Forall_app. split; assumption.
  - repeat split; assumption.
Qed.

Lemma quiet_try_except_Exception {A} (body handler : M A) :
  quiet body -> quiet handler -> quiet (try_except_Exception body handler).
Proof.
  intros Hbody Hh w Hb. unfold try_except_Exception.
  destruct (Hbody w Hb) as (Hr & Hc & Ht).
  destruct (body w) as [[a|e] w1 t1]; cbn [res final trace] in *.
  - repeat split; assumption.
  - assert (is_Some (current w1)) as Hb1 by (rewrite Hc; exact Hb).
    destruct (Hh w1 Hb1) as (Hr' & Hc' & Ht').
    split; [congruence|]. split; [congruence|].
    apply Forall_app. split; assumption.
Qed.




Lemma quiet_context_add (key : string) (v : tag_value) : quiet (Context.add key v).
Proof. intros w _. repeat split. repeat constructor. Qed.

Lemma quiet_username (request : HttpRequest) :
  quiet (match user request with
         | Some get_username =>
             name <- lift get_username ;; Context.add "username" (VStr name)
         | None => ret tt
         end).
Proof.
  destruct (user request) as [u|]; [|apply quiet_ret].
  apply quiet_bind; [apply quiet_lift|]. intros name. apply quiet_context_add.
Qed.

Lemma quiet_run {A} (m : M A) (w : world) :
  quiet m -> is_Some (current w) ->
  exists (o : outcome A) (w' : world) (t : list event),
    m w = mkRun o w' t /\ requests w' = requests w /\ current w' = current w /\
    Forall harmless t.
Proof.
  intros Hq Hb. destruct (Hq w Hb) as (Hr & Hc & Ht).
  exists (res (m w)), (final (m w)), (trace (m w)).
  split; [apply run_eta; reflexivity|]. repeat split; assumption.
Qed.


Lemma stack_of_requests (w w' : world) (r : nat) :
  requests w' = requests w -> stack_of w' r = stack_of w r.
Proof. intros H. unfold stack_of. rewrite H. reflexivity. Qed.


Lemma real_request_of_requests (w w' : world) (r : nat) :
  requests w' = requests w -> real_request_of w' r = real_request_of w r.
Proof. intros H. unfold real_request_of. rewrite H. reflexivity. Qed.

Lemma stack_of_add_tag (w : world) (r r' : nat) (key : string) (v : tag_value) :
  stack_of (add_tag r key v w) r' = stack_of w r'.
Proof.
  unfold stack_of, add_tag. simpl.
  destruct (decide (r' = r)) as [->|Hne].
  - rewrite lookup_alter_eq. destruct (requests w !! r); reflexivity.
  - rewrite lookup_alter_ne by congruence. reflexivity.
Qed.


(** [ViewTimingMiddleware.process_view] returns whatever the request holds. *)
Lemma ViewTimingMiddleware_process_view_returns (core : Core)
    (request : HttpRequest) (w : world) :
  res (ViewTimingMiddleware.process_view request w) = Return tt.
Proof.
  unfold ViewTimingMiddleware.process_view.
  match goal with
  | |- res (try_except_Exception ?b _ _) = _ => generalize b
  end.
  intros body. unfold try_except_Exception.
  destruct (body w) as [[[]|e] w1 t]; reflexivity.
Qed.

Lemma OldStyleViewMiddleware_process_view_path_raises (core : Core)
    (request : HttpRequest) (w : world) (e : exn) :
  path request = Raise e ->
  OldStyleViewMiddleware.process_view request w = mkRun (Raise e) (with_instance w) [].
Proof.
  intros Hp. unfold OldStyleViewMiddleware.process_view.
  eapply run_bind_return; [apply instance_run| |reflexivity].
  eapply run_bind_raise. rewrite Hp. reflexivity.
Qed.

Lemma OldStyleViewMiddleware_process_view_resolver_raises (core : Core)
    (request : HttpRequest) (w : world) (p : string) (e : exn) :
  path request = Return p ->
  resolver_match_func_path request = Raise e ->
  OldStyleViewMiddleware.process_view request w
  = if ignore_path p
    then mkRun (Raise e)
               (add_tag (instance_of w) "ignore_transaction" (VBool true)
                        (with_instance w))
               [ETag (instance_of w) "ignore_transaction" (VBool true)]
    else mkRun (Raise e) (with_instance w) [].
Proof.
  intros Hp Hr. unfold OldStyleViewMiddleware.process_view.
  destruct (ignore_path p) eqn:Hi.
  - eapply run_bind_return; [apply instance_run| |reflexivity].
    eapply run_bind_return; [rewrite Hp; reflexivity| |reflexivity].
    rewrite Hi.
    eapply run_bind_return; [reflexivity| |reflexivity].
    eapply run_bind_raise. rewrite Hr. reflexivity.
  - eapply run_bind_return; [apply instance_run| |reflexivity].
    eapply run_bind_return; [rewrite Hp; reflexivity| |reflexivity].
    rewrite Hi.
    eapply run_bind_return; [reflexivity| |reflexivity].
    eapply run_bind_raise. rewrite Hr. reflexivity.
Qed.

(** C3 (the code departs from it).  [OldStyleViewMiddleware.process_view]
    reads [request.resolver_match._func_path] outside its [try]: on a request
    where that access raises [AttributeError] the exception propagates, while
    [ViewTimingMiddleware.process_view] returns on the same request. *)
Theorem OldStyleViewMiddleware_process_view_propagates (core : Core) (w : world) :
  res (OldStyleViewMiddleware.process_view unresolved_request w) = Raise AttributeError /\
  res (ViewTimingMiddleware.process_view unresolved_request w) = Return tt.
Proof.
  split.
  - rewrite (OldStyleViewMiddleware_process_view_resolver_raises core
               unresolved_request w "/hello/" AttributeError eq_refl eq_refl).
    destruct (ignore_path "/hello/"); reflexivity.
  - apply ViewTimingMiddleware_process_view_returns.
Qed.

(** *** An ignored path is tagged, not suppressed *)


Lemma OldStyleViewMiddleware_process_view_run (core : Core)
    (request : HttpRequest) (p view_name : string) (w : world) :
  path request = Return p ->
  resolver_match_func_path request = Return view_name ->
  let r := instance_of w in
  let w1 := if ignore_path p
            then add_tag r "ignore_transaction" (VBool true) (with_instance w)
            else with_instance w in
  let tagged := if ignore_path p
                then [ETag r "ignore_transaction" (VBool true)] else [] in
  let s := fresh (dom (spans w)) in
  let w2 := final (TrackedRequest.mark_real_request r
                     (final (TrackedRequest.start_span r
                               ("Controller/" ++ view_name)%string w1))) in
  exists (w' : world) (rest : list event),
    OldStyleViewMiddleware.process_view request w
    = mkRun (Return (set_scout_view_span s request, None)) w'
            (tagged ++ EStartSpan r ("Controller/" ++ view_name)%string s
                    :: EMarkRealRequest r :: rest) /\
    requests w' = requests w2 /\
    Forall harmless rest.
Proof.
  intros Hp Hr r w1 tagged s w2.
  assert (spans w1 = spans w) as Hsp.
  { subst w1. destruct (ignore_path p); apply spans_with_instance. }
  assert (current w2 = Some r) as Hcur.
  { subst w2 w1. destruct (ignore_path p); apply current_with_instance. }
  assert (s = fresh (dom (spans w1))) as Hs by (subst s; rewrite Hsp; reflexivity).
  clearbody s. subst s. set (s := fresh (dom (spans w1))).
  destruct (quiet_run
              (try_except_Exception
                 (match user (set_scout_view_span s request) with
                  | Some get_username =>
                      name <- lift get_username ;; Context.add "username" (VStr name)
                  | None => ret tt
                  end) (ret tt)) w2)
    as (o & w' & t & Hrun & Hreq & _ & Hharm).
  { apply quiet_try_except_Exception;
      [apply (quiet_username (set_scout_view_span s request))|apply quiet_ret]. }
  { rewrite Hcur. eexists. reflexivity. }
  exists w', t. split; [|split; assumption].
  assert (o = Return tt) as ->.
  { assert (res (try_except_Exception
                   (match user (set_scout_view_span s request) with
                    | Some get_username =>
                        name <- lift get_username ;; Context.add "username" (VStr name)
                    | None => ret tt
                    end) (ret tt) w2) = o) as Hres by (rewrite Hrun; reflexivity).
    rewrite <- Hres. unfold try_except_Exception.
    match goal with |- context [res (?b w2)] => destruct (b w2) as [[[]|e] wb tb] end;
      reflexivity. }
  unfold OldStyleViewMiddleware.process_view.
  eapply run_bind_return; [apply instance_run| |reflexivity].
  eapply run_bind_return; [rewrite Hp; reflexivity| |reflexivity].
  eapply (run_bind_return _ _ _ w1 _ tt _ _ tagged).
  - subst tagged w1. destruct (ignore_path p); reflexivity.
  - eapply run_bind_return; [rewrite Hr; reflexivity| |reflexivity].
    eapply run_bind_return; [reflexivity| |reflexivity].
    eapply run_bind_return; [reflexivity| |reflexivity].
    eapply run_bind_return; [exact Hrun|reflexivity|reflexivity].
  - cbn [app]. rewrite app_nil_r. reflexivity.
Qed.

Lemma requests_mark_real_request (r : nat) (w : world) :
  requests (final (TrackedRequest.mark_real_request r w))
  = alter (set_real_request true) r (requests w).
Proof. reflexivity. Qed.

Lemma requests_start_span (r : nat) (op : string) (w : world) :
  requests (final (TrackedRequest.start_span r op w))
  = alter (fun tr => set_active_spans (fresh (dom (spans w)) :: active_spans tr) tr)
          r (requests w).
Proof. reflexivity. Qed.

Lemma requests_add_tag (r : nat) (key : string) (v : tag_value) (w : world) :
  requests (add_tag r key v w)
  = alter (fun tr => set_tags (<[key := v]> (tags tr)) tr) r (requests w).
Proof. reflexivity. Qed.



(** ** The N+1 detector captures once *)

Section DetectorFacts.

Variable normalize : string -> string.
Variable threshold : nat.

Abbreviation update := (NPlusOneCallSet.update normalize threshold).
Abbreviation feed := (NPlusOneCallSet.feed normalize threshold).
Abbreviation count_of := NPlusOneCallSet.count_of.
Abbreviation captured := NPlusOneCallSet.captured.

Local Open Scope nat_scope.

Lemma count_of_update (c : NPlusOneCallSet.call) (cs : NPlusOneCallSet.call_set)
    (sig : string) :
  count_of (update c cs) sig
  = if decide (sig = normalize (NPlusOneCallSet.signature c))
    then S (count_of cs sig) else count_of cs sig.
Proof.
  unfold NPlusOneCallSet.update, NPlusOneCallSet.count_of.
  set (s := normalize (NPlusOneCallSet.signature c)).
  destruct (decide (sig = s)) as [->|Hne].
  - destruct (_ && _); cbn [NPlusOneCallSet.items]; rewrite lookup_insert_eq;
      destruct (NPlusOneCallSet.items cs !! s); reflexivity.
  - destruct (_ && _); cbn [NPlusOneCallSet.items];
      rewrite lookup_insert_ne by congruence; reflexivity.
Qed.

Lemma captured_update (c : NPlusOneCallSet.call) (cs : NPlusOneCallSet.call_set)
    (sig : string) :
  let s := normalize (NPlusOneCallSet.signature c) in
  captured (update c cs) sig = captured cs sig \/
  (sig = s /\ captured (update c cs) sig = S (captured cs sig) /\
   (count_of cs s < threshold <= S (count_of cs s))%nat).
Proof.
  intros s. unfold NPlusOneCallSet.update. fold s.
  unfold NPlusOneCallSet.count_of.
  destruct (NPlusOneCallSet.items cs !! s) as [old|] eqn:Hold;
    cbn [NPlusOneCallSet.count NPlusOneCallSet.backtrace].
  - destruct (Nat.ltb_spec (NPlusOneCallSet.count old) threshold) as [Hlt|];
      [|left; reflexivity].
    destruct (Nat.leb_spec threshold (S (NPlusOneCallSet.count old))) as [Hle|];
      [|left; reflexivity].
    cbn [andb]. destruct (NPlusOneCallSet.capture_backtrace_policy c _);
      [|left; reflexivity].
    unfold NPlusOneCallSet.captured. cbn [NPlusOneCallSet.captures].
    rewrite filter_app, length_app.
    destruct (decide (s = sig)) as [<-|Hne].
    + right. rewrite filter_cons_True by reflexivity. cbn. split; [reflexivity|].
      split; [lia|]. split; assumption.
    + left. rewrite filter_cons_False by exact Hne. cbn. lia.
  - destruct (Nat.ltb_spec 0 threshold) as [Hlt|]; [|left; reflexivity].
    destruct (Nat.leb_spec threshold 1) as [Hle|]; [|left; reflexivity].
    cbn [andb]. destruct (NPlusOneCallSet.capture_backtrace_policy c _);
      [|left; reflexivity].
    unfold NPlusOneCallSet.captured. cbn [NPlusOneCallSet.captures].
    rewrite filter_app, length_app.
    destruct (decide (s = sig)) as [<-|Hne].
    + right. rewrite filter_cons_True by reflexivity. cbn. split; [reflexivity|].
      split; [lia|]. split; assumption.
    + left. rewrite filter_cons_False by exact Hne. cbn. lia.
Qed.

Lemma captured_update_policy (c : NPlusOneCallSet.call)
    (cs : NPlusOneCallSet.call_set) :
  (forall it, NPlusOneCallSet.capture_backtrace_policy c it = true) ->
  let s := normalize (NPlusOneCallSet.signature c) in
  captured (update c cs) s
  = (captured cs s
     + if (count_of cs s <? threshold) && (threshold <=? S (count_of cs s))
       then 1 else 0)%nat.
Proof.
  intros Hpol s. unfold NPlusOneCallSet.update. fold s.
  rewrite Hpol, andb_true_r.
  replace (NPlusOneCallSet.count
             match NPlusOneCallSet.items cs !! s with
             | Some it => it
             | None => NPlusOneCallSet.mkItem 0 None
             end) with (count_of cs s)
    by (unfold NPlusOneCallSet.count_of;
        destruct (NPlusOneCallSet.items cs !! s); reflexivity).
  cbn [NPlusOneCallSet.count].
  destruct ((count_of cs s <? threshold) && (threshold <=? S (count_of cs s)));
    unfold NPlusOneCallSet.captured; cbn [NPlusOneCallSet.captures].
  - rewrite filter_app, length_app, filter_cons_True by reflexivity. reflexivity.
  - lia.
Qed.

(** Every capture for a signature is backed by a count that reached the
    threshold, and no signature has more than one. *)
Lemma feed_invariant (calls : list NPlusOneCallSet.call)
    (cs : NPlusOneCallSet.call_set) :
  (forall sig, (captured cs sig <= 1)%nat /\
               (1 <= captured cs sig -> threshold <= count_of cs sig)%nat) ->
  forall sig, (captured (feed calls cs) sig <= 1)%nat /\
              (1 <= captured (feed calls cs) sig ->
               threshold <= count_of (feed calls cs) sig)%nat.
Proof.
  revert cs. induction calls as [|c calls IH]; intros cs Hinv; [exact Hinv|].
  cbn [NPlusOneCallSet.feed fold_left]. apply IH. intros sig.
  destruct (Hinv sig) as [Hle Hcnt].
  rewrite count_of_update.
  destruct (captured_update c cs sig) as [Heq|(-> & Heq & Hlt & Hge)].
  - rewrite Heq. split; [exact Hle|]. intros H1.
    destruct (decide _); [apply Hcnt in H1; lia|apply Hcnt; exact H1].
  - rewrite Heq.
    destruct (decide _) as [_|Hne]; [|congruence].
    split; [|lia].
    destruct (Nat.eq_dec (captured cs (normalize (NPlusOneCallSet.signature c))) 0)
      as [->|Hpos]; [lia|].
    assert (threshold <= count_of cs (normalize (NPlusOneCallSet.signature c)))%nat
      by (apply Hcnt; lia).
    lia.
Qed.

(** The count of a signature is the number of its observations, whatever
    else is fed in between. *)
Lemma count_of_feed (calls : list NPlusOneCallSet.call)
    (cs : NPlusOneCallSet.call_set) (sig : string) :
  count_of (feed calls cs) sig = (count_of cs sig + observations normalize sig calls)%nat.
Proof.
  revert cs. induction calls as [|c calls IH]; intros cs.
  - cbn. lia.
  - cbn [NPlusOneCallSet.feed fold_left].
    pose proof (IH (update c cs)) as Hcount.
    unfold NPlusOneCallSet.feed in Hcount. rewrite Hcount, count_of_update.
    unfold observations.
    destruct (decide (sig = normalize (NPlusOneCallSet.signature c))) as [->|Hne].
    + rewrite filter_cons_True by reflexivity. cbn [List.length]. lia.
    + rewrite filter_cons_False by congruence. reflexivity.
Qed.

(** The captures of a signature whose observations all pass the capture
    policy: one when its count crosses the threshold, whatever else is fed
    in between. *)
Lemma captured_feed (calls : list NPlusOneCallSet.call)
    (cs : NPlusOneCallSet.call_set) (sig : string) :
  Forall (fun c => normalize (NPlusOneCallSet.signature c) = sig ->
                   forall it, NPlusOneCallSet.capture_backtrace_policy c it = true)
         calls ->
  captured (feed calls cs) sig
  = (captured cs sig
     + if (count_of cs sig <? threshold)
          && (threshold <=? count_of cs sig + observations normalize sig calls)
       then 1 else 0)%nat.
Proof.
  revert cs. induction calls as [|c calls IH]; intros cs Hall.
  - cbn [NPlusOneCallSet.feed fold_left].
    change (observations normalize sig []) with 0%nat. rewrite Nat.add_0_r.
    destruct (Nat.ltb_spec (count_of cs sig) threshold);
      destruct (Nat.leb_spec threshold (count_of cs sig)); cbn [andb]; lia.
  - inversion Hall as [|c' calls' Hpol Hrest]; subst c' calls'.
    cbn [NPlusOneCallSet.feed fold_left].
    pose proof (IH (update c cs) Hrest) as Hcap.
    unfold NPlusOneCallSet.feed in Hcap. rewrite Hcap, count_of_update.
    unfold observations.
    destruct (decide (sig = normalize (NPlusOneCallSet.signature c))) as [Heq|Hne].
    + rewrite filter_cons_True by (symmetry; exact Heq). cbn [List.length].
      pose proof (captured_update_policy c cs (Hpol (eq_sym Heq))) as Hfire.
      cbv zeta in Hfire. rewrite <- Heq in Hfire. rewrite Hfire.
      set (n := List.length
                  (filter (fun c0 => normalize (NPlusOneCallSet.signature c0) = sig)
                          calls)).
      destruct (Nat.ltb_spec (count_of cs sig) threshold);
        destruct (Nat.leb_spec threshold (S (count_of cs sig)));
        destruct (Nat.ltb_spec (S (count_of cs sig)) threshold);
        destruct (Nat.leb_spec threshold (S (count_of cs sig) + n));
        destruct (Nat.leb_spec threshold (count_of cs sig + S n));
        cbn; lia.
    + rewrite filter_cons_False by congruence.
      destruct (captured_update c cs sig) as [Hsame|(Heq & _)];
        [|destruct (Hne Heq)].
      rewrite Hsame. reflexivity.
Qed.

(** C9. Within one request, whatever other signatures are fed in between: a
    normalized signature observed fewer than [threshold] times has no
    backtrace captured; observed exactly [threshold] times, or more, with a
    capture policy that returns true, it has exactly one; and no signature
    ever has more than one. *)
Theorem n_plus_one_captures_once :
  (0 < threshold)%nat ->
  forall (calls : list NPlusOneCallSet.call) (sig : string),
    let n := observations normalize sig calls in
    let result := feed calls NPlusOneCallSet.empty in
    count_of result sig = n /\
    ((n < threshold)%nat -> captured result sig = 0%nat) /\
    (Forall (fun c => normalize (NPlusOneCallSet.signature c) = sig ->
                      forall it, NPlusOneCallSet.capture_backtrace_policy c it = true)
            calls ->
     (n = threshold -> captured result sig = 1%nat) /\
     ((threshold <= n)%nat -> captured result sig = 1%nat)) /\
    (captured result sig <= 1)%nat.
Proof.
  intros Hpos calls sig n result.
  assert (count_of result sig = n) as Hcount.
  { subst result n. rewrite count_of_feed. reflexivity. }
  assert (forall sig', (captured result sig' <= 1)%nat /\
                       (1 <= captured result sig' ->
                        threshold <= count_of result sig')%nat) as Hinv.
  { apply (feed_invariant calls NPlusOneCallSet.empty).
    intros sig'. split; [cbn; lia|]. cbn. lia. }
  split; [exact Hcount|]. split; [|split].
  - intros Hlt. destruct (Hinv sig) as [Hle Hreach].
    destruct (Nat.eq_dec (captured result sig) 0) as [H0|Hne]; [exact H0|].
    assert (threshold <= count_of result sig)%nat by (apply Hreach; lia). lia.
  - intros Hall.
    assert ((threshold <= n)%nat -> captured result sig = 1%nat) as Hge.
    { intros Hle. subst result. rewrite (captured_feed calls _ sig Hall).
      change (count_of NPlusOneCallSet.empty sig) with 0%nat.
      change (captured NPlusOneCallSet.empty sig) with 0%nat.
      fold n.
      destruct (Nat.ltb_spec 0 threshold); [|lia].
      destruct (Nat.leb_spec threshold (0 + n)); cbn; lia. }
    split; [intros Heq; apply Hge; lia|exact Hge].
  - apply Hinv.
Qed.

End DetectorFacts.

Lemma n_plus_one_captures_once_witness :
  NPlusOneCallSet.captured
    (NPlusOneCallSet.feed (fun s => s) 2
       [NPlusOneCallSet.mkCall "SELECT a" (fun _ => true) ["view"];
        NPlusOneCallSet.mkCall "SELECT b" (fun _ => true) ["view"];
        NPlusOneCallSet.mkCall "SELECT a" (fun _ => true) ["view"]]
       NPlusOneCallSet.empty) "SELECT a" = 1%nat.
Proof.
  apply (proj1 (proj1 (proj2 (proj2
           (n_plus_one_captures_once (fun s => s) 2 ltac:(lia)
              [NPlusOneCallSet.mkCall "SELECT a" (fun _ => true) ["view"];
               NPlusOneCallSet.mkCall "SELECT b" (fun _ => true) ["view"];
               NPlusOneCallSet.mkCall "SELECT a" (fun _ => true) ["view"]]
              "SELECT a")))
           ltac:(repeat constructor))).
  vm_compute. reflexivity.
Defined.

(** ** Further properties of the adapter *)

(** *** The queue-time header *)



(** X2. A timestamp [float] accepts and [datetime.utcfromtimestamp] refuses
    makes [track_request_queue_time] raise that exception, with the state
    and the tags as they were. *)
Theorem queue_time_out_of_range_raises (request : HttpRequest) (r : nat) (w : world)
    (h : string) (timestamp : spec_float) (e : exn) :
  header_value request = Some h ->
  PyFloat.of_str (timestamp_text (queue_time_re_sub h)) = Return timestamp ->
  PyDatetime.utcfromtimestamp timestamp = Raise e ->
  track_request_queue_time request r w = mkRun (Raise e) w [].
Proof.
  intros Hh Hts He.
  rewrite track_request_queue_time_spec. unfold queue_time_decision. rewrite Hh.
  destruct h as [|c h].
  - vm_compute in Hts. discriminate.
  - unfold PyFloat.of_str in Hts.
    destruct (PyFloat.parse _) as [ts|]; [|discriminate].
    injection Hts as ->. rewrite He. reflexivity.
Qed.

Lemma queue_time_out_of_range_raises_witness :
  track_request_queue_time out_of_range_request 0%nat (world_started_at 0)
  = mkRun (Raise ValueError) (world_started_at 0) [].
Proof.
  apply (queue_time_out_of_range_raises out_of_range_request 0%nat
           (world_started_at 0) "1234567890e5"
           (S754_finite false 7901234496000000 (-6)) ValueError).
  - vm_compute. reflexivity.
  - vm_compute. reflexivity.
  - vm_compute. reflexivity.
Defined.

(** Digits pass the regular expression untouched. *)
Lemma queue_time_re_sub_digits (a rest : string) :
  Forall (fun c => PyStr.is_digit c = true) (list_ascii_of_string a) ->
  queue_time_re_sub (a ++ rest)%string = (a ++ queue_time_re_sub rest)%string.
Proof.
  induction a as [|c a IH]; intros Hd; [reflexivity|].
  inversion Hd as [|c' l Hc Ha]; subst c' l.
  assert (Ascii.eqb c "t" = false /\ Ascii.eqb c "." = false) as [Ht Hdot].
  { split; destruct (Ascii.eqb_spec c "t"), (Ascii.eqb_spec c ".");
      subst; try reflexivity; vm_compute in Hc; discriminate. }
  change (String c a ++ rest)%string with (String c (a ++ rest)).
  change (String c a ++ queue_time_re_sub rest)%string
    with (String c (a ++ queue_time_re_sub rest)).
  rewrite <- (IH Ha).
  cbn [queue_time_re_sub]. rewrite Ht, Hdot. cbn [andb].
  destruct (a ++ rest)%string; reflexivity.
Qed.

(** X3. The header may give the seconds, in digits, followed by a decimal
    point and the fraction, with or without the [t=] prefix, or the same
    characters in one run without the point (milliseconds since the epoch):
    the outcome is the same. *)
Theorem queue_time_header_formats (seconds millis : string) (r : nat) (w : world) :
  Forall (fun c => PyStr.is_digit c = true) (list_ascii_of_string seconds) ->
  seconds <> "" ->
  let run_with (h : string) :=
    track_request_queue_time (request_with_header "HTTP_X_REQUEST_START" h) r w in
  run_with ("t=" ++ seconds ++ "." ++ millis)%string
  = run_with (seconds ++ millis)%string /\
  run_with (seconds ++ "." ++ millis)%string
  = run_with (seconds ++ millis)%string.
Proof.
  intros Hs Hne run_with.
  assert (queue_time_re_sub (seconds ++ "." ++ millis)
          = queue_time_re_sub (seconds ++ millis)) as Hdot.
  { rewrite (queue_time_re_sub_digits seconds ("." ++ millis) Hs),
            (queue_time_re_sub_digits seconds millis Hs).
    f_equal.
    change ("." ++ millis)%string with (String "." millis).
    destruct millis as [|c m]; [reflexivity|].
    cbn [queue_time_re_sub]. reflexivity. }
  assert (forall h h' : string,
            h <> "" -> h' <> "" ->
            queue_time_re_sub h = queue_time_re_sub h' ->
            run_with h = run_with h') as Hrun.
  { intros h h' Hh Hh' Heq. subst run_with. cbv beta.
    rewrite !track_request_queue_time_spec. unfold queue_time_decision.
    assert (forall x : string,
              header_value (request_with_header "HTTP_X_REQUEST_START" x) = Some x)
      as Hv.
    { intros x. unfold header_value, request_with_header. cbn [META].
      rewrite lookup_singleton_ne by discriminate.
      rewrite lookup_singleton_eq. reflexivity. }
    rewrite !Hv, Heq.
    destruct h; [congruence|]. destruct h'; [congruence|]. reflexivity. }
  assert (seconds ++ millis <> "")%string as Hne1
    by (destruct seconds; [congruence|discriminate]).
  assert (seconds ++ "." ++ millis <> "")%string as Hne2
    by (destruct seconds; [congruence|discriminate]).
  split.
  - apply Hrun; [discriminate|exact Hne1|].
    rewrite <- Hdot. reflexivity.
  - apply Hrun; [exact Hne2|exact Hne1|exact Hdot].
Qed.

Lemma queue_time_header_formats_witness :
  track_request_queue_time
    (request_with_header "HTTP_X_REQUEST_START" "t=1600000000.123") 0%nat
    (world_started_at 1600000000623000)
  = track_request_queue_time
      (request_with_header "HTTP_X_REQUEST_START" "1600000000123") 0%nat
      (world_started_at 1600000000623000).
Proof.
  apply (proj1 (queue_time_header_formats "1600000000" "123" 0%nat
                  (world_started_at 1600000000623000)
                  ltac:(repeat constructor) ltac:(discriminate))).
Defined.

(** *** The new-style middlewares around a host *)

Lemma stack_of_mark_real_request (r r' : nat) (w : world) :
  stack_of (final (TrackedRequest.mark_real_request r w)) r' = stack_of w r'.
Proof.
  unfold stack_of. rewrite requests_mark_real_request.
  destruct (decide (r' = r)) as [->|Hne].
  - rewrite lookup_alter_eq. destruct (requests w !! r); reflexivity.
  - rewrite lookup_alter_ne by congruence. reflexivity.
Qed.

Lemma stack_of_start_span (r r' : nat) (op : string) (w : world) :
  is_Some (requests w !! r) ->
  stack_of (final (TrackedRequest.start_span r op w)) r'
  = if decide (r' = r) then fresh (dom (spans w)) :: stack_of w r else stack_of w r'.
Proof.
  intros [tr Htr]. unfold stack_of. rewrite requests_start_span.
  destruct (decide (r' = r)) as [->|Hne].
  - rewrite lookup_alter_eq, Htr. reflexivity.
  - rewrite lookup_alter_ne by congruence. reflexivity.
Qed.

Lemma live_mark_real_request (r r' : nat) (w : world) :
  is_Some (requests w !! r') ->
  is_Some (requests (final (TrackedRequest.mark_real_request r w)) !! r').
Proof.
  intros [tr Htr]. rewrite requests_mark_real_request.
  destruct (decide (r' = r)) as [->|Hne].
  - rewrite lookup_alter_eq, Htr. eexists. reflexivity.
  - rewrite lookup_alter_ne by congruence. eexists. exact Htr.
Qed.

Lemma live_add_tag (r r' : nat) (key : string) (v : tag_value) (w : world) :
  is_Some (requests w !! r') ->
  is_Some (requests (add_tag r key v w) !! r').
Proof.
  intros [tr Htr]. rewrite requests_add_tag.
  destruct (decide (r' = r)) as [->|Hne].
  - rewrite lookup_alter_eq, Htr. eexists. reflexivity.
  - rewrite lookup_alter_ne by congruence. eexists. exact Htr.
Qed.

(** X4. [ViewTimingMiddleware.__call__] is transparent and balanced:
    whatever [get_response] does, its value or its exception is the outcome,
    and the engine sees [mark_real_request], [start_span("Unknown")], the
    calls of [get_response] and one [stop_span] on the same tracked request,
    in this order. *)
Theorem ViewTimingMiddleware_call_transparent
    (get_response : HttpRequest -> M HttpResponse) (request : HttpRequest)
    (w : world) :
  let r := instance_of w in
  let started :=
    final (TrackedRequest.start_span r "Unknown"
             (final (TrackedRequest.mark_real_request r (with_instance w)))) in
  let host := get_response request started in
  let out := ViewTimingMiddleware.__call__ get_response request w in
  res out = res host /\
  trace out = [EMarkRealRequest r; EStartSpan r "Unknown" (fresh (dom (spans w)))]
              ++ trace host ++ [EStopSpan r] /\
  final out = final (TrackedRequest.stop_span r (final host)).
Proof.
  intros r started host out. subst out.
  rewrite ViewTimingMiddleware_call_run.
  change (spans (final (TrackedRequest.mark_real_request (instance_of w)
                          (with_instance w))))
    with (spans (with_instance w)).
  rewrite spans_with_instance. repeat split.
Qed.

(** X5. Around a host that leaves the tracked requests alone,
    [ViewTimingMiddleware.__call__] puts every span stack back as it found
    it and leaves the request marked real, also when the host raises. *)
Theorem ViewTimingMiddleware_call_restores_stack
    (get_response : HttpRequest -> M HttpResponse) (request : HttpRequest)
    (w : world) :
  bound_live w ->
  quiet (get_response request) ->
  let out := ViewTimingMiddleware.__call__ get_response request w in
  (forall r' : nat, stack_of (final out) r' = stack_of w r') /\
  real_request_of (final out) (instance_of w) = true.
Proof.
  intros Hlive Hquiet out. subst out.
  pose proof (instance_live w Hlive) as Hr.
  set (r := instance_of w) in *.
  set (w1 := final (TrackedRequest.mark_real_request r (with_instance w))).
  set (w2 := final (TrackedRequest.start_span r "Unknown" w1)).
  assert (is_Some (requests w1 !! r)) as Hr1
    by (apply live_mark_real_request; exact Hr).
  assert (is_Some (current w2)) as Hbound.
  { change (current w2) with (current (with_instance w)).
    rewrite current_with_instance. eexists. reflexivity. }
  destruct (Hquiet w2 Hbound) as (Hreq & _ & _).
  rewrite ViewTimingMiddleware_call_run. cbn [final]. fold r w1 w2.
  split.
  - intros r'. rewrite stack_of_stop_span.
    rewrite !(stack_of_requests _ _ _ Hreq).
    subst w2. rewrite !(stack_of_start_span _ _ _ _ Hr1).
    destruct (decide (r = r)) as [_|Hne]; [|congruence].
    subst w1. rewrite !stack_of_mark_real_request, !stack_of_with_instance.
    destruct (decide (r' = r)) as [->|_]; reflexivity.
  - rewrite real_request_of_stop_span, (real_request_of_requests _ _ _ Hreq).
    subst w2. rewrite real_request_of_start_span.
    apply real_request_of_mark_real_request. exact Hr.
Qed.

Lemma ViewTimingMiddleware_call_restores_stack_witness :
  stack_of (final (ViewTimingMiddleware.__call__ static_404 plain_request
                     (world_started_at 0))) 0%nat
  = stack_of (world_started_at 0) 0%nat.
Proof.
  apply (proj1 (ViewTimingMiddleware_call_restores_stack static_404 plain_request
                  (world_started_at 0)
                  (ex_intro _ (TrackedRequest.new 0) eq_refl)
                  (quiet_ret not_found))).
Defined.

(** X6. [MiddlewareTimingMiddleware.__call__], when the queue-time header
    does not make [track_request_queue_time] raise, is transparent and
    balanced: the outcome is that of [get_response], preceded by
    [start_span] and the queue-time tag, if any, and followed by one
    [stop_span] on the request bound when [get_response] is done. *)
Theorem MiddlewareTimingMiddleware_call_transparent
    (get_response : HttpRequest -> M HttpResponse) (request : HttpRequest)
    (w : world) :
  let r := instance_of w in
  let started := final (TrackedRequest.start_span r "Middleware" (with_instance w)) in
  (forall e : exn, queue_time_decision request (start_of started r) <> QRaise e) ->
  let queued := track_request_queue_time request r started in
  let host := get_response request (final queued) in
  let r' := instance_of (final host) in
  let out := MiddlewareTimingMiddleware.__call__ get_response request w in
  res out = res host /\
  trace out = EStartSpan r "Middleware" (fresh (dom (spans w)))
                :: trace queued ++ trace host ++ [EStopSpan r'] /\
  final out = final (TrackedRequest.stop_span r' (with_instance (final host))) /\
  (trace queued = [] \/
   exists v : Z, 0 <= v /\ trace queued = [ETag r "scout.queue_time_us" (VInt v)]).
Proof.
  intros r started Hok queued host r' out. subst out.
  assert (res queued = Return tt) as Hres.
  { subst queued. rewrite track_request_queue_time_spec.
    destruct (queue_time_decision request (start_of started r)) as [|e|v] eqn:Hd;
      [reflexivity|destruct (Hok e eq_refl)|reflexivity]. }
  rewrite (MiddlewareTimingMiddleware_call_run get_response request w
             (final queued) (trace queued) (run_eta queued _ Hres)).
  cbn [res final trace]. repeat split.
  subst queued. rewrite track_request_queue_time_spec.
  destruct (queue_time_decision request (start_of started r)) as [|e|v] eqn:Hd.
  - left. reflexivity.
  - left. reflexivity.
  - right. exists v. split; [|reflexivity].
    apply (queue_time_decision_not_negative _ _ _ Hd).
Qed.

Lemma MiddlewareTimingMiddleware_call_transparent_witness :
  res (MiddlewareTimingMiddleware.__call__ static_404 plain_request (fresh_world 0))
  = Return not_found.
Proof.
  apply (MiddlewareTimingMiddleware_call_transparent static_404 plain_request
           (fresh_world 0)).
  intros e. vm_compute. discriminate.
Defined.

(** *** The old-style middlewares: request, view, response, exception *)

Lemma OldStyleMiddlewareTimingMiddleware_process_request_run
    (request : HttpRequest) (w : world) :
  let r := instance_of w in
  let s := fresh (dom (spans w)) in
  let started := final (TrackedRequest.start_span r "Middleware" (with_instance w)) in
  let request' := set_scout_middleware_span s request in
  let queued := track_request_queue_time request' r started in
  OldStyleMiddlewareTimingMiddleware.process_request request w
  = mkRun (match res queued with
           | Return _ => Return request'
           | Raise e => Raise e
           end)
          (final queued)
          (EStartSpan r "Middleware" s :: trace queued).
Proof.
  intros r s started request' queued.
  assert (s = fresh (dom (spans (with_instance w)))) as Hs
    by (subst s; rewrite spans_with_instance; reflexivity).
  clearbody s. subst s. set (s := fresh (dom (spans (with_instance w)))) in *.
  unfold OldStyleMiddlewareTimingMiddleware.process_request.
  eapply run_bind_return; [apply instance_run| |reflexivity].
  eapply run_bind_return; [reflexivity| |reflexivity].
  destruct (res queued) as [[]|e] eqn:Hres.
  - eapply run_bind_return; [exact (run_eta queued _ Hres)|reflexivity|].
    rewrite app_nil_r. reflexivity.
  - eapply run_bind_raise. exact (run_eta queued _ Hres).
Qed.

Lemma stack_of_track_request_queue_time (request : HttpRequest) (r r' : nat)
    (w : world) :
  stack_of (final (track_request_queue_time request r w)) r' = stack_of w r'.
Proof.
  rewrite track_request_queue_time_spec.
  destruct (queue_time_decision request (start_of w r)); cbn [final];
    [reflexivity|reflexivity|apply stack_of_add_tag].
Qed.

Lemma current_track_request_queue_time (request : HttpRequest) (r : nat) (w : world) :
  current (final (track_request_queue_time request r w)) = current w.
Proof.
  rewrite track_request_queue_time_spec.
  destruct (queue_time_decision request (start_of w r)); reflexivity.
Qed.

Lemma current_top_bound (w : world) (r : nat) :
  current w = Some r -> current_top w = head (stack_of w r).
Proof. intros H. unfold current_top. rewrite H. reflexivity. Qed.

Lemma instance_of_bound (w : world) (r : nat) :
  current w = Some r -> instance_of w = r.
Proof. intros H. unfold instance_of. rewrite H. reflexivity. Qed.

(** X7. [OldStyleMiddlewareTimingMiddleware]: when [process_request]
    returns, the span it started is saved on the request and is the current
    span; a [process_response] that follows stops exactly that span and puts
    the span stack back as [process_request] found it. *)
Theorem OldStyleMiddlewareTimingMiddleware_round_trip (request request' : HttpRequest)
    (response : HttpResponse) (w w1 : world) (t : list event) :
  bound_live w ->
  OldStyleMiddlewareTimingMiddleware.process_request request w
  = mkRun (Return request') w1 t ->
  let r := instance_of w in
  let s := fresh (dom (spans w)) in
  scout_middleware_span request' = Some s /\
  current_top w1 = Some s /\
  stack_of w1 r = s :: stack_of w r /\
  let out := OldStyleMiddlewareTimingMiddleware.process_response request' response w1 in
  res out = Return response /\
  trace out = [EStopSpan r] /\
  stack_of (final out) r = stack_of w r.
Proof.
  intros Hlive Hrun r s.
  rewrite OldStyleMiddlewareTimingMiddleware_process_request_run in Hrun.
  fold r s in Hrun.
  set (started := final (TrackedRequest.start_span r "Middleware" (with_instance w)))
    in *.
  set (queued := track_request_queue_time (set_scout_middleware_span s request) r started)
    in *.
  destruct (res queued) as [[]|e]; [|discriminate].
  injection Hrun as <- <- _.
  assert (current (final queued) = Some r) as Hcur.
  { subst queued. rewrite current_track_request_queue_time.
    change (current started) with (current (with_instance w)).
    apply current_with_instance. }
  assert (stack_of (final queued) r = s :: stack_of w r) as Hstack.
  { subst queued. rewrite stack_of_track_request_queue_time.
    subst started. rewrite (stack_of_start_span _ _ _ _ (instance_live w Hlive)).
    rewrite spans_with_instance, stack_of_with_instance.
    destruct (decide (r = instance_of w)) as [_|Hne];
      [reflexivity|destruct Hne; reflexivity]. }
  assert (current_top (final queued) = Some s) as Htop
    by (rewrite (current_top_bound _ _ Hcur), Hstack; reflexivity).
  split; [reflexivity|]. split; [exact Htop|]. split; [exact Hstack|].
  intros out. subst out.
  destruct (stop_if_current_guarded (Some s) response (final queued))
    as (Hres & _ & _ & Hstop).
  destruct (Hstop s eq_refl Htop) as [Htrace Hpop].
  rewrite (instance_of_bound _ _ Hcur) in Htrace, Hpop.
  split; [exact Hres|]. split; [exact Htrace|].
  etransitivity; [exact Hpop|]. rewrite Hstack. reflexivity.
Qed.

Lemma OldStyleMiddlewareTimingMiddleware_round_trip_witness :
  trace (OldStyleMiddlewareTimingMiddleware.process_response
           (set_scout_middleware_span 0 plain_request) not_found
           (final (OldStyleMiddlewareTimingMiddleware.process_request plain_request
                     (world_started_at 0))))
  = [EStopSpan 0%nat].
Proof.
  apply (OldStyleMiddlewareTimingMiddleware_round_trip plain_request
           (set_scout_middleware_span 0 plain_request) not_found
           (world_started_at 0)
           (final (OldStyleMiddlewareTimingMiddleware.process_request plain_request
                     (world_started_at 0)))
           [EStartSpan 0%nat "Middleware" 0%nat]).
  - exists (TrackedRequest.new 0). reflexivity.
  - vm_compute. reflexivity.
Defined.

Lemma OldStyleViewMiddleware_process_exception_run (request : HttpRequest)
    (w : world) :
  let r := instance_of w in
  OldStyleViewMiddleware.process_exception request w =
  match scout_view_span request with
  | Some s =>
      if bool_decide (current_top w = Some s)
      then mkRun (Return tt)
                 (final (TrackedRequest.stop_span r
                           (add_tag r "error" (VStr "true") (with_instance w))))
                 [ETag r "error" (VStr "true"); EStopSpan r]
      else mkRun (Return tt) (with_instance w) []
  | None => mkRun (Return tt) (with_instance w) []
  end.
Proof.
  intros r. unfold OldStyleViewMiddleware.process_exception.
  destruct (scout_view_span request) as [s|].
  - destruct (bool_decide (current_top w = Some s)) eqn:Hcur.
    + eapply run_bind_return; [apply instance_run| |reflexivity].
      eapply run_bind_return; [reflexivity| |reflexivity].
      cbn [res final trace]. rewrite current_top_with_instance, Hcur.
      eapply run_bind_return; [reflexivity|apply stop_span_run|reflexivity].
    + eapply run_bind_return; [apply instance_run| |reflexivity].
      eapply run_bind_return; [reflexivity| |reflexivity].
      cbn [res final trace]. rewrite current_top_with_instance, Hcur.
      reflexivity.
  - eapply run_bind_return; [apply instance_run|reflexivity|reflexivity].
Qed.

Lemma tags_of_stop_span (r r' : nat) (w : world) :
  tags_of (final (TrackedRequest.stop_span r w)) r' = tags_of w r'.
Proof.
  unfold TrackedRequest.stop_span.
  destruct (stack_of w r) as [|s rest]; [reflexivity|].
  assert (forall f : tracked_request -> tracked_request,
            (forall tr, tags (f tr) = tags tr) ->
            forall m : gmap nat tracked_request,
              match alter f r m !! r' with Some tr => tags tr | None => ∅ end
              = match m !! r' with Some tr => tags tr | None => ∅ end)
    as Halter.
  { intros f Hf m. destruct (decide (r' = r)) as [->|Hne].
    - rewrite lookup_alter_eq. destruct (m !! r); simpl; [apply Hf|reflexivity].
    - rewrite lookup_alter_ne by congruence. reflexivity. }
  unfold tags_of. destruct rest; simpl; apply Halter; intros tr; reflexivity.
Qed.

Lemma tags_of_with_instance_live (w : world) (r : nat) :
  bound_live w -> tags_of (with_instance w) r = tags_of w r.
Proof.
  unfold bound_live, with_instance, TrackedRequest.instance, tags_of.
  destruct (current w) as [c|]; [reflexivity|intros _]. simpl.
  destruct (decide (r = fresh (dom (requests w)))) as [->|Hne].
  - rewrite lookup_insert_eq, fresh_request_unused. reflexivity.
  - rewrite lookup_insert_ne by congruence. reflexivity.
Qed.

(** X8. [OldStyleViewMiddleware.process_exception] returns [None]; it tags
    the request [error = "true"] and stops the span only when the span saved
    by [process_view] is the current one; otherwise it calls nothing and the
    span stacks and the tags stay as they were. *)
Theorem OldStyleViewMiddleware_process_exception_guarded (request : HttpRequest)
    (w : world) :
  bound_live w ->
  let r := instance_of w in
  let out := OldStyleViewMiddleware.process_exception request w in
  res out = Return tt /\
  (scout_view_span request = None \/ current_top w <> scout_view_span request ->
   trace out = [] /\
   forall r' : nat,
     stack_of (final out) r' = stack_of w r' /\ tags_of (final out) r' = tags_of w r') /\
  (forall s : nat,
     scout_view_span request = Some s -> current_top w = Some s ->
     trace out = [ETag r "error" (VStr "true"); EStopSpan r] /\
     tags_of (final out) r !! "error" = Some (VStr "true") /\
     stack_of (final out) r = tail (stack_of w r)).
Proof.
  intros Hlive r out. subst out.
  rewrite OldStyleViewMiddleware_process_exception_run. fold r.
  destruct (instance_live w Hlive) as [tr Htr]. fold r in Htr.
  destruct (scout_view_span request) as [s|].
  - destruct (bool_decide_reflect (current_top w = Some s)) as [Hcur|Hcur];
      cbn [res final trace].
    + split; [reflexivity|]. split.
      * intros [Habs|Habs]; [discriminate|]. destruct (Habs Hcur).
      * intros s' _ _. split; [reflexivity|]. split.
        -- rewrite tags_of_stop_span, (tags_of_add_tag _ _ tr _ _ Htr).
           apply lookup_insert_eq.
        -- rewrite stack_of_stop_span.
           destruct (decide (r = r)) as [_|Hne]; [|congruence].
           rewrite stack_of_add_tag, stack_of_with_instance. reflexivity.
    + split; [reflexivity|]. split.
      * intros _. split; [reflexivity|]. intros r'.
        split; [apply stack_of_with_instance|].
        apply tags_of_with_instance_live. exact Hlive.
      * intros s' [= <-] Hs. destruct (Hcur Hs).
  - cbn [res final trace]. split; [reflexivity|]. split.
    + intros _. split; [reflexivity|]. intros r'.
      split; [apply stack_of_with_instance|].
      apply tags_of_with_instance_live. exact Hlive.
    + intros s' [=].
Qed.

Lemma OldStyleViewMiddleware_process_exception_guarded_witness :
  trace (OldStyleViewMiddleware.process_exception plain_request (world_started_at 0))
  = [].
Proof.
  apply (proj1 (proj2 (OldStyleViewMiddleware_process_exception_guarded plain_request
                  (world_started_at 0)
                  (ex_intro _ (TrackedRequest.new 0) eq_refl)))).
  left. reflexivity.
Defined.

(** X9. [ViewTimingMiddleware.process_exception] returns [None], whatever
    the state: it tags the bound request [error = "true"] and touches no
    span stack. *)
Theorem ViewTimingMiddleware_process_exception_tags_error (w : world) :
  bound_live w ->
  let r := instance_of w in
  let out := ViewTimingMiddleware.process_exception w in
  res out = Return tt /\
  trace out = [ETag r "error" (VStr "true")] /\
  tags_of (final out) r !! "error" = Some (VStr "true") /\
  (forall (r' : nat) (key : string),
     (r', key) <> (r, "error") ->
     tags_of (final out) r' !! key = tags_of w r' !! key) /\
  (forall r' : nat, stack_of (final out) r' = stack_of w r').
Proof.
  intros Hlive r out. subst out.
  destruct (instance_live w Hlive) as [tr Htr]. fold r in Htr.
  assert (ViewTimingMiddleware.process_exception w
          = mkRun (Return tt) (add_tag r "error" (VStr "true") (with_instance w))
                  [ETag r "error" (VStr "true")]) as ->.
  { unfold ViewTimingMiddleware.process_exception.
    eapply run_bind_return; [apply instance_run|reflexivity|reflexivity]. }
  cbn [res final trace]. split; [reflexivity|]. split; [reflexivity|].
  split; [|split].
  - rewrite (tags_of_add_tag _ _ tr _ _ Htr). apply lookup_insert_eq.
  - intros r' key Hne.
    rewrite <- (tags_of_with_instance_live w r' Hlive).
    unfold tags_of. rewrite requests_add_tag.
    destruct (decide (r' = r)) as [->|Hr].
    + rewrite lookup_alter_eq, Htr. cbn.
      apply lookup_insert_ne. congruence.
    + rewrite lookup_alter_ne by congruence. reflexivity.
  - intros r'. rewrite stack_of_add_tag. apply stack_of_with_instance.
Qed.

Lemma ViewTimingMiddleware_process_exception_tags_error_witness :
  trace (ViewTimingMiddleware.process_exception (fresh_world 0))
  = [ETag 0%nat "error" (VStr "true")].
Proof.
  apply (ViewTimingMiddleware_process_exception_tags_error (fresh_world 0)).
  exact I.
Defined.

(** *** [ViewTimingMiddleware.process_view] *)

Lemma real_request_of_with_instance (w : world) (r : nat) :
  real_request_of (with_instance w) r = real_request_of w r.
Proof.
  unfold with_instance, TrackedRequest.instance, real_request_of.
  destruct (current w) as [c|]; [reflexivity|]. simpl.
  destruct (decide (r = fresh (dom (requests w)))) as [->|Hne].
  - rewrite lookup_insert_eq, fresh_request_unused. reflexivity.
  - rewrite lookup_insert_ne by congruence. reflexivity.
Qed.

Lemma real_request_of_add_tag (w : world) (r r' : nat) (key : string) (v : tag_value) :
  real_request_of (add_tag r key v w) r' = real_request_of w r'.
Proof.
  unfold real_request_of. rewrite requests_add_tag.
  destruct (decide (r' = r)) as [->|Hne].
  - rewrite lookup_alter_eq. destruct (requests w !! r); reflexivity.
  - rewrite lookup_alter_ne by congruence. reflexivity.
Qed.

Lemma records_details_ret {A} (a : A) : records_details (ret a).
Proof. intros w. split; [|split]; [reflexivity|reflexivity|constructor]. Qed.

Lemma records_details_raise {A} (e : exn) : records_details (@raise A e).
Proof. intros w. split; [|split]; [reflexivity|reflexivity|constructor]. Qed.

Lemma records_details_lift {A} (o : outcome A) : records_details (lift o).
Proof. destruct o; [apply records_details_ret|apply records_details_raise]. Qed.

Lemma records_details_bind {A B} (m : M A) (k : A -> M B) :
  records_details m -> (forall a : A, records_details (k a)) ->
  records_details (bind m k).
Proof.
  intros Hm Hk w. unfold bind.
  destruct (Hm w) as (Hs & Hf & Ht).
  destruct (m w) as [[a|e] w1 t1]; cbn [res final trace] in *.
  - destruct (Hk a w1) as (Hs' & Hf' & Ht').
    split; [intros r; rewrite Hs'; apply Hs|].
    split; [intros r; rewrite Hf'; apply Hf|].
    apply Forall_app. split; assumption.
  - split; [exact Hs|]. split; [exact Hf|exact Ht].
Qed.

Lemma records_details_try_except_Exception {A} (body handler : M A) :
  records_details body -> records_details handler ->
  records_details (try_except_Exception body handler).
Proof.
  intros Hbody Hh w. unfold try_except_Exception.
  destruct (Hbody w) as (Hs & Hf & Ht).
  destruct (body w) as [[a|e] w1 t1]; cbn [res final trace] in *.
  - split; [exact Hs|]. split; [exact Hf|exact Ht].
  - destruct (Hh w1) as (Hs' & Hf' & Ht').
    split; [intros r; rewrite Hs'; apply Hs|].
    split; [intros r; rewrite Hf'; apply Hf|].
    apply Forall_app. split; assumption.
Qed.

Lemma records_details_instance : records_details TrackedRequest.instance.
Proof.
  intros w. rewrite instance_run. cbn [final trace].
  split; [intros r; apply stack_of_with_instance|].
  split; [intros r; apply real_request_of_with_instance|constructor].
Qed.

Lemma records_details_current_span (r : nat) :
  records_details (TrackedRequest.current_span r).
Proof. intros w. split; [|split]; [reflexivity|reflexivity|constructor]. Qed.

Lemma records_details_tag_ignore (r : nat) :
  records_details (TrackedRequest.tag r "ignore_transaction" (VBool true)).
Proof.
  intros w.
  change (final (TrackedRequest.tag r "ignore_transaction" (VBool true) w))
    with (add_tag r "ignore_transaction" (VBool true) w).
  split; [intros r'; apply stack_of_add_tag|].
  split; [intros r'; apply real_request_of_add_tag|].
  constructor; [|constructor]. right. exists r. reflexivity.
Qed.

Lemma records_details_set_operation (s : nat) (op : string) :
  records_details (Span.set_operation s op).
Proof.
  intros w. split; [|split]; [reflexivity|reflexivity|].
  constructor; [|constructor]. left. exact I.
Qed.

Lemma records_details_context_add (key : string) (v : tag_value) :
  records_details (Context.add key v).
Proof.
  intros w. split; [|split]; [reflexivity|reflexivity|].
  constructor; [|constructor]. left. exact I.
Qed.

Lemma records_details_process_view (core : Core) (request : HttpRequest) :
  records_details (ViewTimingMiddleware.process_view request).
Proof.
  unfold ViewTimingMiddleware.process_view.
  apply records_details_try_except_Exception; [|apply records_details_ret].
  apply records_details_bind; [apply records_details_lift|intros p].
  apply records_details_bind.
  { destruct (ignore_path p); [|apply records_details_ret].
    apply records_details_bind; [apply records_details_instance|intros tr].
    apply records_details_tag_ignore. }
  intros _.
  apply records_details_bind; [apply records_details_lift|intros view_name].
  apply records_details_bind; [apply records_details_instance|intros tr].
  apply records_details_bind; [apply records_details_current_span|intros [s|]];
    [|apply records_details_ret].
  apply records_details_bind; [apply records_details_set_operation|intros _].
  apply records_details_bind; [apply records_details_lift|intros p'].
  apply records_details_bind; [apply records_details_context_add|intros _].
  apply records_details_bind; [apply records_details_lift|intros ip].
  apply records_details_bind; [apply records_details_context_add|intros _].
  destruct (user request) as [get_username|]; [|apply records_details_ret].
  apply records_details_bind; [apply records_details_lift|intros name].
  apply records_details_context_add.
Qed.

(** X10. [ViewTimingMiddleware.process_view] never raises and never starts
    or stops a span nor marks a request: whatever the request and the state,
    it returns [None], every span stack and every real-request flag is as
    before, and its engine calls are the [ignore_transaction] tag, the
    renaming of a span and additions to the context. *)
Theorem ViewTimingMiddleware_process_view_only_records (core : Core)
    (request : HttpRequest) (w : world) :
  let out := ViewTimingMiddleware.process_view request w in
  res out = Return tt /\
  (forall r : nat, stack_of (final out) r = stack_of w r) /\
  (forall r : nat, real_request_of (final out) r = real_request_of w r) /\
  Forall detail (trace out).
Proof.
  intros out. subst out.
  split; [apply ViewTimingMiddleware_process_view_returns|].
  apply records_details_process_view.
Qed.

(** X11. Inside a span, on a request whose path, view and client address can
    be read, [ViewTimingMiddleware.process_view] renames the current span
    [Controller/<view>] and adds [path], [user_ip] and, when the request has
    a user whose name can be read, [username] to the context, in this order
    and after the [ignore_transaction] tag if the path is ignored. *)
Theorem ViewTimingMiddleware_process_view_records_view (core : Core)
    (request : HttpRequest) (p view_name ip : string) (r s : nat) (w : world) :
  current w = Some r ->
  head (stack_of w r) = Some s ->
  path request = Return p ->
  resolver_match_func_path request = Return view_name ->
  lookup_from_headers (META request) = Return ip ->
  let op := ("Controller/" ++ view_name)%string in
  let tagged :=
    if ignore_path p then [ETag r "ignore_transaction" (VBool true)] else [] in
  let named :=
    match user request with
    | Some (Return name) => [EContextAdd "username" (VStr name)]
    | _ => []
    end in
  let recorded := <["user_ip" := VStr ip]> (<["path" := VStr p]> (context w)) in
  let out := ViewTimingMiddleware.process_view request w in
  trace out = tagged ++ [ESetOperation s op; EContextAdd "path" (VStr p);
                         EContextAdd "user_ip" (VStr ip)] ++ named /\
  (forall sp : span,
     spans w !! s = Some sp ->
     spans (final out) !! s
     = Some (mkSpan op (span_parent sp) (span_start sp) (span_stop sp))) /\
  context (final out)
  = match user request with
    | Some (Return name) => <["username" := VStr name]> recorded
    | _ => recorded
    end.
Proof.
  intros Hcur Htop Hp Hv Hip op tagged named recorded out. subst out.
  set (w1 := if ignore_path p
             then add_tag r "ignore_transaction" (VBool true) w else w).
  assert (current w1 = Some r) as Hcur1
    by (subst w1; destruct (ignore_path p); exact Hcur).
  assert (head (stack_of w1 r) = Some s) as Htop1.
  { subst w1. destruct (ignore_path p); [rewrite stack_of_add_tag|]; exact Htop. }
  assert (spans w1 = spans w) as Hsp
    by (subst w1; destruct (ignore_path p); reflexivity).
  assert (context w1 = context w) as Hctx
    by (subst w1; destruct (ignore_path p); reflexivity).
  assert ((if ignore_path p
           then tr <- TrackedRequest.instance ;;
                TrackedRequest.tag tr "ignore_transaction" (VBool true)
           else ret tt) w = mkRun (Return tt) w1 tagged) as Htag.
  { subst w1 tagged. destruct (ignore_path p); [|reflexivity].
    eapply run_bind_return;
      [apply instance_bound; exact Hcur|reflexivity|reflexivity]. }
  clearbody w1 tagged.
  set (renamed := fun sp : span =>
                    mkSpan op (span_parent sp) (span_start sp) (span_stop sp)).
  assert (exists wf : world,
            ViewTimingMiddleware.process_view request w
            = mkRun (Return tt) wf
                    (tagged ++ [ESetOperation s op; EContextAdd "path" (VStr p);
                                EContextAdd "user_ip" (VStr ip)] ++ named) /\
            spans wf = alter renamed s (spans w1) /\
            context wf
            = match user request with
              | Some (Return name) =>
                  <["username" := VStr name]>
                    (<["user_ip" := VStr ip]> (<["path" := VStr p]> (context w1)))
              | _ => <["user_ip" := VStr ip]> (<["path" := VStr p]> (context w1))
              end) as (wf & Hrun & Hspans & Hcontext).
  { unfold ViewTimingMiddleware.process_view. subst named.
    destruct (user request) as [[name|e]|] eqn:Hu.
    - eexists. split.
      { eapply try_except_Exception_return.
        eapply run_bind_return; [rewrite Hp; reflexivity| |reflexivity].
        eapply run_bind_return; [exact Htag| |reflexivity].
        eapply run_bind_return; [rewrite Hv; reflexivity| |reflexivity].
        eapply run_bind_return; [apply instance_bound; exact Hcur1| |reflexivity].
        eapply run_bind_return; [reflexivity| |reflexivity].
        cbn [res final trace]. rewrite Htop1.
        eapply run_bind_return; [reflexivity| |reflexivity].
        eapply run_bind_return; [rewrite Hp; reflexivity| |reflexivity].
        eapply run_bind_return; [reflexivity| |reflexivity].
        eapply run_bind_return; [rewrite Hip; reflexivity| |reflexivity].
        eapply run_bind_return; [reflexivity| |reflexivity].
        eapply run_bind_return; [reflexivity|reflexivity|reflexivity]. }
      split; reflexivity.
    - eexists. split.
      { eapply try_except_Exception_raise; [|reflexivity|].
        + eapply run_bind_return; [rewrite Hp; reflexivity| |reflexivity].
          eapply run_bind_return; [exact Htag| |reflexivity].
          eapply run_bind_return; [rewrite Hv; reflexivity| |reflexivity].
          eapply run_bind_return; [apply instance_bound; exact Hcur1| |reflexivity].
          eapply run_bind_return; [reflexivity| |reflexivity].
          cbn [res final trace]. rewrite Htop1.
          eapply run_bind_return; [reflexivity| |reflexivity].
          eapply run_bind_return; [rewrite Hp; reflexivity| |reflexivity].
          eapply run_bind_return; [reflexivity| |reflexivity].
          eapply run_bind_return; [rewrite Hip; reflexivity| |reflexivity].
          eapply run_bind_return; [reflexivity| |reflexivity].
          eapply run_bind_raise. reflexivity.
        + cbn [app]. rewrite !app_nil_r. reflexivity. }
      split; reflexivity.
    - eexists. split.
      { eapply try_except_Exception_return.
        eapply run_bind_return; [rewrite Hp; reflexivity| |reflexivity].
        eapply run_bind_return; [exact Htag| |reflexivity].
        eapply run_bind_return; [rewrite Hv; reflexivity| |reflexivity].
        eapply run_bind_return; [apply instance_bound; exact Hcur1| |reflexivity].
        eapply run_bind_return; [reflexivity| |reflexivity].
        cbn [res final trace]. rewrite Htop1.
        eapply run_bind_return; [reflexivity| |reflexivity].
        eapply run_bind_return; [rewrite Hp; reflexivity| |reflexivity].
        eapply run_bind_return; [reflexivity| |reflexivity].
        eapply run_bind_return; [rewrite Hip; reflexivity| |reflexivity].
        eapply run_bind_return; [reflexivity|reflexivity|reflexivity]. }
      split; reflexivity. }
  rewrite Hrun. cbn [res final trace].
  split; [reflexivity|]. split.
  - intros sp Hsp'. rewrite Hspans, Hsp, lookup_alter_eq, Hsp'. reflexivity.
  - rewrite Hcontext, Hctx. reflexivity.
Qed.

Lemma ViewTimingMiddleware_process_view_records_view_witness :
  trace (@ViewTimingMiddleware.process_view health_check_core plain_request
           (final (TrackedRequest.start_span 0 "Unknown" (world_started_at 0))))
  = [ESetOperation 0%nat "Controller/app.views.hello";
     EContextAdd "path" (VStr "/hello/");
     EContextAdd "user_ip" (VStr "127.0.0.1")].
Proof.
  apply (ViewTimingMiddleware_process_view_records_view health_check_core
           plain_request "/hello/" "app.views.hello" "127.0.0.1" 0%nat 0%nat
           (final (TrackedRequest.start_span 0 "Unknown" (world_started_at 0)))).
  - reflexivity.
  - vm_compute. reflexivity.
  - reflexivity.
  - reflexivity.
  - reflexivity.
Defined.

(** X12. Outside any span, [ViewTimingMiddleware.process_view] records
    nothing: apart from the [ignore_transaction] tag of an ignored path it
    makes no engine call, and the spans and the context are as before. *)
Theorem ViewTimingMiddleware_process_view_without_span (core : Core)
    (request : HttpRequest) (p : string) (r : nat) (w : world) :
  current w = Some r ->
  stack_of w r = [] ->
  path request = Return p ->
  let out := ViewTimingMiddleware.process_view request w in
  trace out = (if ignore_path p
               then [ETag r "ignore_transaction" (VBool true)] else []) /\
  spans (final out) = spans w /\
  context (final out) = context w.
Proof.
  intros Hcur Hstack Hp out. subst out.
  set (tagged := if ignore_path p
                 then [ETag r "ignore_transaction" (VBool true)] else []).
  set (w1 := if ignore_path p
             then add_tag r "ignore_transaction" (VBool true) w else w).
  assert (current w1 = Some r) as Hcur1
    by (subst w1; destruct (ignore_path p); exact Hcur).
  assert (stack_of w1 r = []) as Hstack1.
  { subst w1. destruct (ignore_path p); [rewrite stack_of_add_tag|]; exact Hstack. }
  assert (spans w1 = spans w) as Hsp
    by (subst w1; destruct (ignore_path p); reflexivity).
  assert (context w1 = context w) as Hctx
    by (subst w1; destruct (ignore_path p); reflexivity).
  assert ((if ignore_path p
           then tr <- TrackedRequest.instance ;;
                TrackedRequest.tag tr "ignore_transaction" (VBool true)
           else ret tt) w = mkRun (Return tt) w1 tagged) as Htag.
  { subst w1 tagged. destruct (ignore_path p); [|reflexivity].
    eapply run_bind_return;
      [apply instance_bound; exact Hcur|reflexivity|reflexivity]. }
  clearbody w1 tagged.
  assert (ViewTimingMiddleware.process_view request w = mkRun (Return tt) w1 tagged)
    as ->.
  { unfold ViewTimingMiddleware.process_view.
    destruct (resolver_match_func_path request) as [view_name|e] eqn:Hv.
    - eapply try_except_Exception_return.
      eapply run_bind_return; [rewrite Hp; reflexivity| |reflexivity].
      eapply run_bind_return; [exact Htag| |rewrite app_nil_r; reflexivity].
      eapply run_bind_return; [reflexivity| |reflexivity].
      eapply run_bind_return; [apply instance_bound; exact Hcur1| |reflexivity].
      eapply run_bind_return; [reflexivity| |reflexivity].
      cbn [res final trace]. rewrite Hstack1. reflexivity.
    - eapply try_except_Exception_raise; [|reflexivity|].
      + eapply run_bind_return; [rewrite Hp; reflexivity| |reflexivity].
        eapply run_bind_return; [exact Htag| |reflexivity].
        eapply run_bind_raise. reflexivity.
      + cbn [app]. rewrite !app_nil_r. reflexivity. }
  cbn [final trace]. split; [reflexivity|]. split; assumption.
Qed.

Lemma ViewTimingMiddleware_process_view_without_span_witness :
  trace (@ViewTimingMiddleware.process_view health_check_core health_request
           (world_started_at 0))
  = [ETag 0%nat "ignore_transaction" (VBool true)].
Proof.
  apply (ViewTimingMiddleware_process_view_without_span health_check_core
           health_request "/health" 0%nat (world_started_at 0));
    reflexivity.
Defined.

(** *** [OldStyleViewMiddleware]: a view, then its response or its exception *)

Lemma keeps_binding_ret {A} (r : nat) (a : A) : keeps_binding r (ret a).
Proof. intros w H. exact H. Qed.

Lemma keeps_binding_lift {A} (r : nat) (o : outcome A) : keeps_binding r (lift o).
Proof. intros w H. destruct o; exact H. Qed.

Lemma keeps_binding_bind {A B} (r : nat) (m : M A) (k : A -> M B) :
  keeps_binding r m -> (forall a : A, keeps_binding r (k a)) ->
  keeps_binding r (bind m k).
Proof.
  intros Hm Hk w Hb. unfold bind. pose proof (Hm w Hb) as Hc.
  destruct (m w) as [[a|e] w1 t1]; cbn [res final trace] in *.
  - apply Hk. exact Hc.
  - exact Hc.
Qed.

Lemma keeps_binding_try_except_Exception {A} (r : nat) (body handler : M A) :
  keeps_binding r body -> keeps_binding r handler ->
  keeps_binding r (try_except_Exception body handler).
Proof.
  intros Hbody Hh w Hb. unfold try_except_Exception. pose proof (Hbody w Hb) as Hc.
  destruct (body w) as [[a|e] w1 t1]; cbn [res final trace] in *.
  - exact Hc.
  - apply Hh. exact Hc.
Qed.

Lemma keeps_binding_process_view (core : Core) (request : HttpRequest) (w : world) :
  current (final (OldStyleViewMiddleware.process_view request w))
  = Some (instance_of w).
Proof.
  unfold OldStyleViewMiddleware.process_view.
  match goal with
  | |- current (final (bind TrackedRequest.instance ?k w)) = _ =>
      assert (keeps_binding (instance_of w) (k (instance_of w))) as Hk;
      [|unfold bind at 1; rewrite instance_run; cbn [res final trace];
        apply Hk; apply current_with_instance]
  end.
  apply keeps_binding_bind; [apply keeps_binding_lift|intros p].
  apply keeps_binding_bind.
  { destruct (ignore_path p); intros w' H; exact H. }
  intros _.
  apply keeps_binding_bind; [apply keeps_binding_lift|intros view_name].
  apply keeps_binding_bind; [intros w' H; exact H|intros s].
  apply keeps_binding_bind; [intros w' H; exact H|intros _].
  apply keeps_binding_bind; [|intros _; apply keeps_binding_ret].
  apply keeps_binding_try_except_Exception; [|apply keeps_binding_ret].
  destruct (user (set_scout_view_span s request)) as [get_username|];
    [|apply keeps_binding_ret].
  apply keeps_binding_bind; [apply keeps_binding_lift|intros name].
  intros w' H. exact H.
Qed.

Lemma with_instance_bound (w : world) (r : nat) :
  current w = Some r -> with_instance w = w.
Proof. intros H. unfold with_instance. rewrite (instance_bound w r H). reflexivity. Qed.

Lemma stack_of_live (w : world) (r s : nat) (l : list nat) :
  stack_of w r = s :: l -> is_Some (requests w !! r).
Proof.
  unfold stack_of. destruct (requests w !! r) as [tr|]; [|discriminate].
  intros _. eexists. reflexivity.
Qed.

(** The state [OldStyleViewMiddleware.process_view] leaves when the path and
    the view can be read: the new span is saved on the request and is on top
    of the stack of the bound request, which is marked real. *)
Lemma OldStyleViewMiddleware_process_view_state (core : Core)
    (request : HttpRequest) (p view_name : string) (w : world) :
  bound_live w ->
  path request = Return p ->
  resolver_match_func_path request = Return view_name ->
  let r := instance_of w in
  let s := fresh (dom (spans w)) in
  let out := OldStyleViewMiddleware.process_view request w in
  res out = Return (set_scout_view_span s request, None) /\
  current (final out) = Some r /\
  stack_of (final out) r = s :: stack_of w r /\
  real_request_of (final out) r = true.
Proof.
  intros Hlive Hp Hr r s out. subst out.
  destruct (OldStyleViewMiddleware_process_view_run core request p view_name w Hp Hr)
    as (w' & rest & Hrun & Hreq & _).
  fold r s in Hrun, Hreq.
  split; [rewrite Hrun; reflexivity|].
  split; [apply keeps_binding_process_view|].
  rewrite Hrun. cbn [final]. clear Hrun.
  set (w1 := if ignore_path p
             then add_tag r "ignore_transaction" (VBool true) (with_instance w)
             else with_instance w) in *.
  assert (is_Some (requests w1 !! r)) as Hlive1.
  { subst w1. destruct (ignore_path p);
      [apply live_add_tag|]; apply instance_live; exact Hlive. }
  assert (stack_of w1 r = stack_of w r) as Hstack1.
  { subst w1. destruct (ignore_path p);
      [rewrite stack_of_add_tag|]; apply stack_of_with_instance. }
  assert (spans w1 = spans w) as Hsp.
  { subst w1. destruct (ignore_path p); apply spans_with_instance. }
  split.
  - rewrite (stack_of_requests _ _ r Hreq), stack_of_mark_real_request,
      (stack_of_start_span _ _ _ _ Hlive1), Hsp, Hstack1.
    destruct (decide (r = r)) as [_|Hne]; [reflexivity|congruence].
  - rewrite (real_request_of_requests _ _ r Hreq).
    apply real_request_of_mark_real_request.
    rewrite requests_start_span.
    destruct Hlive1 as [tr Htr]. rewrite lookup_alter_eq, Htr.
    eexists. reflexivity.
Qed.

(** X13. [OldStyleViewMiddleware]: when the path and the view can be read,
    [process_view] returns [None] with the new span saved on the request and
    current, also when [get_username] raises; [process_response] on that
    request then stops exactly that span, puts the span stack back as
    [process_view] found it and leaves the request marked real. *)
Theorem OldStyleViewMiddleware_view_then_response (core : Core)
    (request : HttpRequest) (response : HttpResponse) (p view_name : string)
    (w : world) :
  bound_live w ->
  path request = Return p ->
  resolver_match_func_path request = Return view_name ->
  let r := instance_of w in
  let s := fresh (dom (spans w)) in
  let request' := set_scout_view_span s request in
  let viewed := OldStyleViewMiddleware.process_view request w in
  res viewed = Return (request', None) /\
  current_top (final viewed) = Some s /\
  let out := OldStyleViewMiddleware.process_response request' response (final viewed) in
  res out = Return response /\
  trace out = [EStopSpan r] /\
  stack_of (final out) r = stack_of w r /\
  real_request_of (final out) r = true.
Proof.
  intros Hlive Hp Hr r s request' viewed.
  destruct (OldStyleViewMiddleware_process_view_state core request p view_name w
              Hlive Hp Hr) as (Hres & Hcur & Hstack & Hreal).
  fold r s viewed in Hres, Hcur, Hstack, Hreal.
  assert (current_top (final viewed) = Some s) as Htop
    by (rewrite (current_top_bound _ _ Hcur), Hstack; reflexivity).
  split; [exact Hres|]. split; [exact Htop|].
  intros out. subst out.
  change (OldStyleViewMiddleware.process_response request' response (final viewed))
    with (stop_if_current (Some s) response (final viewed)).
  rewrite stop_if_current_run.
  destruct (bool_decide_reflect (current_top (final viewed) = Some s)) as [_|Hne];
    [|destruct (Hne Htop)].
  rewrite (instance_of_bound _ _ Hcur), (with_instance_bound _ _ Hcur).
  cbn [res final trace].
  split; [reflexivity|]. split; [reflexivity|]. split.
  - rewrite stack_of_stop_span, Hstack.
    destruct (decide (r = r)) as [_|Hne]; [reflexivity|congruence].
  - rewrite real_request_of_stop_span. exact Hreal.
Qed.

Lemma OldStyleViewMiddleware_view_then_response_witness :
  res (@OldStyleViewMiddleware.process_view health_check_core plain_request
         (world_started_at 0))
  = Return (set_scout_view_span 0 plain_request, None).
Proof.
  apply (OldStyleViewMiddleware_view_then_response health_check_core plain_request
           not_found "/hello/" "app.views.hello" (world_started_at 0)).
  - exists (TrackedRequest.new 0). reflexivity.
  - reflexivity.
  - reflexivity.
Defined.

(** X14. [OldStyleViewMiddleware]: after a [process_view] that started its
    span, [process_exception] tags the request [error = "true"], stops
    exactly that span and puts the span stack back as [process_view] found
    it. *)
Theorem OldStyleViewMiddleware_view_then_exception (core : Core)
    (request : HttpRequest) (p view_name : string) (w : world) :
  bound_live w ->
  path request = Return p ->
  resolver_match_func_path request = Return view_name ->
  let r := instance_of w in
  let s := fresh (dom (spans w)) in
  let viewed := OldStyleViewMiddleware.process_view request w in
  let out := OldStyleViewMiddleware.process_exception (set_scout_view_span s request)
               (final viewed) in
  res out = Return tt /\
  trace out = [ETag r "error" (VStr "true"); EStopSpan r] /\
  tags_of (final out) r !! "error" = Some (VStr "true") /\
  stack_of (final out) r = stack_of w r.
Proof.
  intros Hlive Hp Hr r s viewed out. subst out.
  destruct (OldStyleViewMiddleware_process_view_state core request p view_name w
              Hlive Hp Hr) as (_ & Hcur & Hstack & _).
  fold r s viewed in Hcur, Hstack.
  assert (current_top (final viewed) = Some s) as Htop
    by (rewrite (current_top_bound _ _ Hcur), Hstack; reflexivity).
  destruct (stack_of_live _ _ _ _ Hstack) as [tr Htr].
  rewrite OldStyleViewMiddleware_process_exception_run.
  cbn [scout_view_span set_scout_view_span].
  destruct (bool_decide_reflect (current_top (final viewed) = Some s)) as [_|Hne];
    [|destruct (Hne Htop)].
  rewrite (instance_of_bound _ _ Hcur), (with_instance_bound _ _ Hcur).
  cbn [res final trace].
  split; [reflexivity|]. split; [reflexivity|]. split.
  - rewrite tags_of_stop_span, (tags_of_add_tag _ _ tr _ _ Htr).
    apply lookup_insert_eq.
  - rewrite stack_of_stop_span, stack_of_add_tag, Hstack.
    destruct (decide (r = r)) as [_|Hne]; [reflexivity|congruence].
Qed.

Lemma OldStyleViewMiddleware_view_then_exception_witness :
  trace (OldStyleViewMiddleware.process_exception
           (set_scout_view_span 0 plain_request)
           (final (@OldStyleViewMiddleware.process_view health_check_core
                     plain_request (world_started_at 0))))
  = [ETag 0%nat "error" (VStr "true"); EStopSpan 0%nat].
Proof.
  apply (OldStyleViewMiddleware_view_then_exception health_check_core plain_request
           "/hello/" "app.views.hello" (world_started_at 0)).
  - exists (TrackedRequest.new 0). reflexivity.
  - reflexivity.
  - reflexivity.
Defined.

(** *** The queue-time header in the middleware-timing hooks *)

(** X15. [OldStyleMiddlewareTimingMiddleware.process_request] lets an
    exception of [track_request_queue_time] through: it raises having
    started the [Middleware] span, which stays open. *)
Theorem OldStyleMiddlewareTimingMiddleware_process_request_raises
    (request : HttpRequest) (w : world) (e : exn) :
  let r := instance_of w in
  let s := fresh (dom (spans w)) in
  let started := final (TrackedRequest.start_span r "Middleware" (with_instance w)) in
  bound_live w ->
  queue_time_decision request (start_of started r) = QRaise e ->
  let out := OldStyleMiddlewareTimingMiddleware.process_request request w in
  res out = Raise e /\
  trace out = [EStartSpan r "Middleware" s] /\
  stack_of (final out) r = s :: stack_of w r.
Proof.
  intros r s started Hlive Hd out. subst out.
  rewrite OldStyleMiddlewareTimingMiddleware_process_request_run.
  fold r s started. rewrite track_request_queue_time_spec.
  change (queue_time_decision (set_scout_middleware_span s request) (start_of started r))
    with (queue_time_decision request (start_of started r)).
  rewrite Hd. cbn [res final trace].
  split; [reflexivity|]. split; [reflexivity|].
  subst started. rewrite (stack_of_start_span _ _ _ _ (instance_live w Hlive)).
  rewrite spans_with_instance, stack_of_with_instance.
  destruct (decide (r = instance_of w)) as [_|Hne];
    [reflexivity|destruct Hne; reflexivity].
Qed.

Lemma OldStyleMiddlewareTimingMiddleware_process_request_raises_witness :
  res (OldStyleMiddlewareTimingMiddleware.process_request out_of_range_request
         (world_started_at 0))
  = Raise ValueError.
Proof.
  apply (OldStyleMiddlewareTimingMiddleware_process_request_raises
           out_of_range_request (world_started_at 0) ValueError).
  - exists (TrackedRequest.new 0). reflexivity.
  - vm_compute. reflexivity.
Defined.

(** X16. Around a host that leaves the tracked requests alone, and when the
    queue-time header does not make [track_request_queue_time] raise,
    [MiddlewareTimingMiddleware.__call__] puts every span stack back as it
    found it, also when the host raises. *)
Theorem MiddlewareTimingMiddleware_call_restores_stack
    (get_response : HttpRequest -> M HttpResponse) (request : HttpRequest)
    (w : world) :
  let r := instance_of w in
  let started := final (TrackedRequest.start_span r "Middleware" (with_instance w)) in
  bound_live w ->
  quiet (get_response request) ->
  (forall e : exn, queue_time_decision request (start_of started r) <> QRaise e) ->
  let out := MiddlewareTimingMiddleware.__call__ get_response request w in
  forall r' : nat, stack_of (final out) r' = stack_of w r'.
Proof.
  intros r started Hlive Hquiet Hok out r'. subst out.
  set (queued := track_request_queue_time request r started).
  assert (res queued = Return tt) as Hres.
  { subst queued. rewrite track_request_queue_time_spec.
    destruct (queue_time_decision request (start_of started r)) as [|e|v] eqn:Hd;
      [reflexivity|destruct (Hok e eq_refl)|reflexivity]. }
  rewrite (MiddlewareTimingMiddleware_call_run get_response request w
             (final queued) (trace queued) (run_eta queued _ Hres)).
  cbn [final].
  assert (current (final queued) = Some r) as Hcur.
  { subst queued. rewrite current_track_request_queue_time.
    change (current started) with (current (with_instance w)).
    apply current_with_instance. }
  destruct (Hquiet (final queued)) as (Hreq & Hc & _);
    [rewrite Hcur; eexists; reflexivity|].
  rewrite Hcur in Hc.
  rewrite (instance_of_bound _ _ Hc), (with_instance_bound _ _ Hc).
  rewrite stack_of_stop_span, !(stack_of_requests _ _ _ Hreq).
  subst queued. rewrite !stack_of_track_request_queue_time.
  subst started. rewrite !(stack_of_start_span _ _ _ _ (instance_live w Hlive)).
  rewrite !stack_of_with_instance.
  destruct (decide (r = instance_of w)) as [_|Hne]; [|destruct Hne; reflexivity].
  destruct (decide (r' = r)) as [->|Hne'].
  - destruct (decide (r = instance_of w)) as [_|Hne]; [reflexivity|].
    destruct Hne; reflexivity.
  - destruct (decide (r' = instance_of w)) as [He|_]; [|reflexivity].
    destruct (Hne' He).
Qed.

Lemma MiddlewareTimingMiddleware_call_restores_stack_witness :
  stack_of (final (MiddlewareTimingMiddleware.__call__ static_404 plain_request
                     (world_started_at 0))) 0%nat
  = stack_of (world_started_at 0) 0%nat.
Proof.
  apply (MiddlewareTimingMiddleware_call_restores_stack static_404 plain_request
           (world_started_at 0)).
  - exists (TrackedRequest.new 0). reflexivity.
  - apply quiet_ret.
  - intros e. vm_compute. discriminate.
Defined.
